(** * frameworks: interface injection, callback hooks and the train / evaluate entry points

    A shallow embedding of

      - [frameworks/_common/mlrun_interface.py]   (module [MLRunInterface]),
      - [frameworks/pytorch/callbacks/callback.py] (module [Callback]),
      - [frameworks/pytorch/__init__.py]           (module [PyTorch]),

    followed by the properties proved about them.  Python objects are records
    of finite maps, mutation is explicit state passing, and raising is an
    explicit outcome that keeps the state reached so far. *)

From stdpp Require Import gmap strings list fin_maps sorting.

Open Scope string_scope.

(* ===================================================================== *)
(** * Part I: the model                                                   *)
(* ===================================================================== *)

(** ** Python values, objects and exceptions *)

Module Py.

(** The values that flow through the three files.  An object is named by
    its identity ([VRef]); a bound method ([types.MethodType]) keeps its
    [__func__] and the identity of its [__self__]. *)
#[warnings="-register-all"]
Inductive value : Type :=
| VNone
| VBool (b : bool)
| VInt (z : Z)
| VStr (s : string)
| VList (items : list value)
| VDict (items : list (string * value))
| VFunction (qualname : string)
| VMethod (func : value) (self : nat)
| VRef (oid : nat).

Inductive exn : Type :=
| AttributeError (name : string)
| TypeError (msg : string)
| Exception (msg : string).

(** The value of an expression: it evaluates to a value or raises. *)
Inductive result (A : Type) : Type :=
| Ok (a : A)
| Raise (e : exn).
Arguments Ok {A} a.
Arguments Raise {A} e.

(** The outcome of a statement executed for its effect. *)
Inductive outcome : Type :=
| Returned
| Raised (e : exn).

(** [bool(v)], as [if v:] tests it. *)
Definition truthy (v : value) : bool :=
  match v with
  | VNone => false
  | VBool b => b
  | VInt z => negb (Z.eqb z 0)
  | VStr s => negb (String.eqb s EmptyString)
  | VList items => negb (Nat.eqb (length items) 0)
  | VDict items => negb (Nat.eqb (length items) 0)
  | VFunction _ | VMethod _ _ | VRef _ => true
  end.

(** [callable(v)]: functions and bound methods. *)
Definition callable (v : value) : bool :=
  match v with
  | VFunction _ | VMethod _ _ => true
  | _ => false
  end.

(** Calling a value with positional arguments, resolved down to the
    function that finally runs and the arguments it receives: a bound
    method calls its [__func__] with [__self__] put in front. *)
Fixpoint call (callee : value) (args : list value) : option (string * list value) :=
  match callee with
  | VFunction qualname => Some (qualname, args)
  | VMethod func self => call func (VRef self :: args)
  | _ => None
  end.

(** An object: its identity, its instance attributes, the attributes it
    finds on its class (inherited ones included), and whether it takes new
    instance attributes.  An ordinary instance does; an object without a
    [__dict__] ([object()], an instance of a class with [__slots__]) does
    not.  The class part is never written through the instance. *)
Record pyobj : Type := {
  obj_id : nat;
  obj_dict : gmap string value;
  obj_class : gmap string value;
  obj_writable : bool
}.

(** [obj.__dir__()]: the names of the instance dictionary and of the class.
    The code only tests membership in it. *)
Definition __dir__ (obj : pyobj) : gset string :=
  dom (obj_dict obj) ∪ dom (obj_class obj).

(** The write itself: the instance attribute [name] becomes [v]. *)
Definition store_attr (obj : pyobj) (name : string) (v : value) : pyobj :=
  {| obj_id := obj_id obj;
     obj_dict := <[name := v]> (obj_dict obj);
     obj_class := obj_class obj;
     obj_writable := obj_writable obj |}.

(** [setattr(obj, name, v)] for a name outside [obj.__dir__()], the only
    way the code calls it: it writes the instance attribute, or raises
    [AttributeError] on an object that takes no new attribute. *)
Definition setattr (obj : pyobj) (name : string) (v : value) : result pyobj :=
  if obj_writable obj then Ok (store_attr obj name v)
  else Raise (AttributeError name).

(** [getattr(obj, name)]: the instance dictionary first, then the class;
    [None] stands for [AttributeError]. *)
Definition getattr (obj : pyobj) (name : string) : option value :=
  match obj_dict obj !! name with
  | Some v => Some v
  | None => obj_class obj !! name
  end.

(** [types.MethodType(func, obj)]: refuses a [func] that is not callable. *)
Definition MethodType (func : value) (obj : pyobj) : result value :=
  if callable func then Ok (VMethod func (obj_id obj))
  else Raise (TypeError "first argument must be callable").

End Py.

(** ** frameworks/_common/mlrun_interface.py *)

Module MLRunInterface.
Import Py.

(** A class inheriting [MLRunInterface]: its three tables and the rest of
    its attributes.  [_PROPERTIES] is a dict, kept as its items in
    iteration order. *)
Record interface : Type := {
  _PROPERTIES : list (string * value);
  _METHODS : list string;
  _FUNCTIONS : list string;
  members : gmap string value
}.

(** [getattr(interface, name)] on the class object. *)
Definition cls_getattr (cls : interface) (name : string) : option value :=
  if decide (name = "_PROPERTIES") then Some (VDict (_PROPERTIES cls))
  else if decide (name = "_METHODS") then Some (VList (VStr <$> _METHODS cls))
  else if decide (name = "_FUNCTIONS") then Some (VList (VStr <$> _FUNCTIONS cls))
  else members cls !! name.

(** The body of the [for] loop of [_insert_properties], over the items
    still to visit; a [setattr] that raises ends it, with the model as it
    is by then. *)
Fixpoint insert_properties_loop (items : list (string * value)) (model : pyobj)
  : pyobj * outcome :=
  match items with
  | [] => (model, Returned)
  | (property_name, default_value) :: rest =>
      if decide (property_name ∈ __dir__ model)
      then insert_properties_loop rest model
      else
        match setattr model property_name default_value with
        | Raise e => (model, Raised e)
        | Ok model' => insert_properties_loop rest model'
        end
  end.

Definition _insert_properties (model : pyobj) (cls : interface) : pyobj * outcome :=
  insert_properties_loop (_PROPERTIES cls) model.

(** The loop of [_insert_methods]: [getattr] on the class may raise
    [AttributeError], [MethodType] may raise [TypeError], and then
    [setattr] may raise; the model keeps what was attached before. *)
Fixpoint insert_methods_loop (cls : interface) (names : list string) (model : pyobj)
  : pyobj * outcome :=
  match names with
  | [] => (model, Returned)
  | method_name :: rest =>
      if decide (method_name ∈ __dir__ model)
      then insert_methods_loop cls rest model
      else
        match cls_getattr cls method_name with
        | None => (model, Raised (AttributeError method_name))
        | Some func =>
            match MethodType func model with
            | Raise e => (model, Raised e)
            | Ok bound =>
                match setattr model method_name bound with
                | Raise e => (model, Raised e)
                | Ok model' => insert_methods_loop cls rest model'
                end
            end
        end
  end.

Definition _insert_methods (model : pyobj) (cls : interface) : pyobj * outcome :=
  insert_methods_loop cls (_METHODS cls) model.

(** The loop of [_insert_functions]. *)
Fixpoint insert_functions_loop (cls : interface) (names : list string) (model : pyobj)
  : pyobj * outcome :=
  match names with
  | [] => (model, Returned)
  | function_name :: rest =>
      if decide (function_name ∈ __dir__ model)
      then insert_functions_loop cls rest model
      else
        match cls_getattr cls function_name with
        | None => (model, Raised (AttributeError function_name))
        | Some func =>
            match setattr model function_name func with
            | Raise e => (model, Raised e)
            | Ok model' => insert_functions_loop cls rest model'
            end
        end
  end.

Definition _insert_functions (model : pyobj) (cls : interface) : pyobj * outcome :=
  insert_functions_loop cls (_FUNCTIONS cls) model.

(** Statement sequencing: a raise skips what follows. *)
Definition and_then (first : pyobj * outcome) (next : pyobj -> pyobj * outcome)
  : pyobj * outcome :=
  match first with
  | (model, Returned) => next model
  | (model, Raised e) => (model, Raised e)
  end.

(** [add_interface(cls, model)]: properties, then methods, then functions. *)
Definition add_interface (cls : interface) (model : pyobj) : pyobj * outcome :=
  and_then (_insert_properties model cls) (fun model =>
  and_then (_insert_methods model cls) (fun model =>
  _insert_functions model cls)).

(** *** Notions used to state the properties *)

(** The first binding of [name] among dict items. *)
Fixpoint dict_get (items : list (string * value)) (name : string) : option value :=
  match items with
  | [] => None
  | (k, v) :: rest => if decide (k = name) then Some v else dict_get rest name
  end.

(** What each pass would attach under [name] to the object [oid]. *)
Definition method_value (cls : interface) (oid : nat) (name : string) : result value :=
  match cls_getattr cls name with
  | None => Raise (AttributeError name)
  | Some func =>
      if callable func then Ok (VMethod func oid)
      else Raise (TypeError "first argument must be callable")
  end.

Definition function_value (cls : interface) (name : string) : result value :=
  match cls_getattr cls name with
  | None => Raise (AttributeError name)
  | Some func => Ok func
  end.

(** The three passes as one list of (name, value to attach), in the order
    [add_interface] visits them. *)
Definition schedule (cls : interface) (oid : nat) : list (string * result value) :=
  ((fun kv => (kv.1, Ok kv.2)) <$> _PROPERTIES cls)
  ++ ((fun n => (n, method_value cls oid n)) <$> _METHODS cls)
  ++ ((fun n => (n, function_value cls n)) <$> _FUNCTIONS cls).

(** Attach-unless-present over such a list. *)
Fixpoint attach (items : list (string * result value)) (model : pyobj) : pyobj * outcome :=
  match items with
  | [] => (model, Returned)
  | (name, rv) :: rest =>
      if decide (name ∈ __dir__ model) then attach rest model
      else
        match rv with
        | Raise e => (model, Raised e)
        | Ok v =>
            match setattr model name v with
            | Raise e => (model, Raised e)
            | Ok model' => attach rest model'
            end
        end
  end.

(** The first entry of a schedule for [name]. *)
Fixpoint first_entry (items : list (string * result value)) (name : string)
  : option (result value) :=
  match items with
  | [] => None
  | (k, rv) :: rest => if decide (k = name) then Some rv else first_entry rest name
  end.

(** Every listed method is a callable attribute of the class and every
    listed function is an attribute of the class. *)
Definition defines_all (cls : interface) : bool :=
  forallb (fun n => match cls_getattr cls n with
                    | Some func => callable func
                    | None => false
                    end) (_METHODS cls)
  && forallb (fun n => match cls_getattr cls n with
                       | Some _ => true
                       | None => false
                       end) (_FUNCTIONS cls).

(** A name one of the three tables lists. *)
Definition listed (cls : interface) (name : string) : Prop :=
  name ∈ (_PROPERTIES cls).*1 \/ name ∈ _METHODS cls \/ name ∈ _FUNCTIONS cls.

(** Each table read on its own: whatever table lists an absent name, the
    object ends up with that table's value under the name; present names
    keep their entry. *)
Definition attaches_as_listed (cls : interface) (model : pyobj) : Prop :=
  let model' := (add_interface cls model).1 in
  forall name,
    (name ∈ __dir__ model -> obj_dict model' !! name = obj_dict model !! name) /\
    (name ∉ __dir__ model ->
       (forall default_value,
           dict_get (_PROPERTIES cls) name = Some default_value ->
           obj_dict model' !! name = Some default_value) /\
       (name ∈ _METHODS cls ->
        forall func,
          cls_getattr cls name = Some func ->
          obj_dict model' !! name = Some (VMethod func (obj_id model))) /\
       (name ∈ _FUNCTIONS cls ->
        forall func,
          cls_getattr cls name = Some func ->
          obj_dict model' !! name = Some func)).

(** *** Sample interfaces and objects *)

Definition logging_interface : interface :=
  {| _PROPERTIES := [("_context", VNone); ("_epoch", VInt 0)];
     _METHODS := ["log"; "fit"];
     _FUNCTIONS := ["helper"];
     members := {[ "log" := VFunction "Interface.log";
                   "fit" := VFunction "Interface.fit";
                   "helper" := VFunction "Interface.helper" ]} |}.

(** An interface that lists [log] both as a property and as a method. *)
Definition overlapping_interface : interface :=
  {| _PROPERTIES := [("log", VInt 0)];
     _METHODS := ["log"];
     _FUNCTIONS := [];
     members := {[ "log" := VFunction "Interface.log" ]} |}.

Definition plain_model : pyobj :=
  {| obj_id := 7;
     obj_dict := {[ "_epoch" := VInt 5 ]};
     obj_class := {[ "forward" := VFunction "Model.forward" ]};
     obj_writable := true |}.

(** An object that takes no new attribute, as [object()] or an instance of
    a class with [__slots__]. *)
Definition sealed_model : pyobj :=
  {| obj_id := 8;
     obj_dict := ∅;
     obj_class := {[ "forward" := VFunction "Model.forward" ]};
     obj_writable := false |}.

(** The value an entry of the schedule attaches, when it has one. *)
Definition ok_value (rv : result value) : option value :=
  match rv with
  | Ok v => Some v
  | Raise _ => None
  end.

(** An interface that lists a method it does not define. *)
Definition broken_interface : interface :=
  {| _PROPERTIES := [("_context", VNone)];
     _METHODS := ["missing"];
     _FUNCTIONS := [];
     members := ∅ |}.

(** An interface whose listed names [plain_model] all has already, and
    which defines none of them. *)
Definition present_only_interface : interface :=
  {| _PROPERTIES := [("_epoch", VInt 0)];
     _METHODS := ["forward"];
     _FUNCTIONS := ["forward"];
     members := ∅ |}.

(** An interface whose names are apart from those of [logging_interface]. *)
Definition metrics_interface : interface :=
  {| _PROPERTIES := [("_metrics", VList [])];
     _METHODS := ["evaluate"];
     _FUNCTIONS := [];
     members := {[ "evaluate" := VFunction "Metrics.evaluate" ]} |}.

End MLRunInterface.


(** ** frameworks/pytorch/callbacks/callback.py *)

Module Callback.
Import Py.

(** [Callback._ObjectKeys] *)
Module _ObjectKeys.
Definition MODEL : string := "model".
Definition TRAINING_SET : string := "training_set".
Definition VALIDATION_SET : string := "validation_set".
Definition LOSS_FUNCTION : string := "loss_function".
Definition OPTIMIZER : string := "optimizer".
Definition METRIC_FUNCTIONS : string := "metric_functions".
Definition SCHEDULER : string := "scheduler".
End _ObjectKeys.

(** A callback instance: the objects dictionary of the base class and
    whatever else a subclass keeps on the instance. *)
Record callback : Type := {
  _objects : gmap string value;
  instance_attrs : gmap string value
}.

(** [self._objects[key] = v] *)
Definition set_object (self : callback) (key : string) (v : value) : callback :=
  {| _objects := <[key := v]> (_objects self);
     instance_attrs := instance_attrs self |}.

(** A parameter declared [= None]: [None] here is an omitted argument. *)
Definition or_none (arg : option value) : value :=
  match arg with
  | Some v => v
  | None => VNone
  end.

Definition __init__ (self : callback) : callback :=
  {| _objects := ∅; instance_attrs := instance_attrs self |}.

Definition on_horovod_check (self : callback) (rank : value) : callback * value :=
  (self, VNone).

Definition on_setup (self : callback)
    (model training_set validation_set loss_function optimizer
       metric_functions scheduler : option value) : callback * value :=
  let self := set_object self _ObjectKeys.MODEL (or_none model) in
  let self := set_object self _ObjectKeys.TRAINING_SET (or_none training_set) in
  let self := set_object self _ObjectKeys.VALIDATION_SET (or_none validation_set) in
  let self := set_object self _ObjectKeys.LOSS_FUNCTION (or_none loss_function) in
  let self := set_object self _ObjectKeys.OPTIMIZER (or_none optimizer) in
  let self := set_object self _ObjectKeys.METRIC_FUNCTIONS (or_none metric_functions) in
  let self := set_object self _ObjectKeys.SCHEDULER (or_none scheduler) in
  (self, VNone).

Definition on_run_begin (self : callback) : callback * value := (self, VNone).
Definition on_run_end (self : callback) : callback * value := (self, VNone).
Definition on_epoch_begin (self : callback) (epoch : value) : callback * value :=
  (self, VNone).
Definition on_epoch_end (self : callback) (epoch : value) : callback * value :=
  (self, VNone).
Definition on_train_begin (self : callback) : callback * value := (self, VNone).
Definition on_train_end (self : callback) : callback * value := (self, VNone).
Definition on_validation_begin (self : callback) : callback * value := (self, VNone).
Definition on_validation_end (self : callback) (loss_value metric_values : value)
  : callback * value := (self, VNone).
Definition on_train_batch_begin (self : callback) (batch x y_true : value)
  : callback * value := (self, VNone).
Definition on_train_batch_end (self : callback) (batch x y_true y_pred : value)
  : callback * value := (self, VNone).
Definition on_validation_batch_begin (self : callback) (batch x y_true : value)
  : callback * value := (self, VNone).
Definition on_validation_batch_end (self : callback) (batch x y_true y_pred : value)
  : callback * value := (self, VNone).
Definition on_train_loss_begin (self : callback) : callback * value := (self, VNone).
Definition on_train_loss_end (self : callback) (loss_value : value) : callback * value :=
  (self, VNone).
Definition on_validation_loss_begin (self : callback) : callback * value := (self, VNone).
Definition on_validation_loss_end (self : callback) (loss_value : value)
  : callback * value := (self, VNone).
Definition on_train_metrics_begin (self : callback) : callback * value := (self, VNone).
Definition on_train_metrics_end (self : callback) (metric_values : value)
  : callback * value := (self, VNone).
Definition on_validation_metrics_begin (self : callback) : callback * value :=
  (self, VNone).
Definition on_validation_metrics_end (self : callback) (metric_values : value)
  : callback * value := (self, VNone).
Definition on_backward_begin (self : callback) : callback * value := (self, VNone).
Definition on_backward_end (self : callback) : callback * value := (self, VNone).
Definition on_optimizer_step_begin (self : callback) : callback * value := (self, VNone).
Definition on_optimizer_step_end (self : callback) : callback * value := (self, VNone).
Definition on_scheduler_step_begin (self : callback) : callback * value := (self, VNone).
Definition on_scheduler_step_end (self : callback) : callback * value := (self, VNone).

Definition on_call_check (self : callback) : callback * value := (self, VBool true).

(** *** Notions used to state the properties *)

(** One invocation of a hook, with its arguments. *)
Inductive hook_call : Type :=
| OnHorovodCheck (rank : value)
| OnSetup (model training_set validation_set loss_function optimizer
             metric_functions scheduler : option value)
| OnRunBegin
| OnRunEnd
| OnEpochBegin (epoch : value)
| OnEpochEnd (epoch : value)
| OnTrainBegin
| OnTrainEnd
| OnValidationBegin
| OnValidationEnd (loss_value metric_values : value)
| OnTrainBatchBegin (batch x y_true : value)
| OnTrainBatchEnd (batch x y_true y_pred : value)
| OnValidationBatchBegin (batch x y_true : value)
| OnValidationBatchEnd (batch x y_true y_pred : value)
| OnTrainLossBegin
| OnTrainLossEnd (loss_value : value)
| OnValidationLossBegin
| OnValidationLossEnd (loss_value : value)
| OnTrainMetricsBegin
| OnTrainMetricsEnd (metric_values : value)
| OnValidationMetricsBegin
| OnValidationMetricsEnd (metric_values : value)
| OnBackwardBegin
| OnBackwardEnd
| OnOptimizerStepBegin
| OnOptimizerStepEnd
| OnSchedulerStepBegin
| OnSchedulerStepEnd
| OnCallCheck.

Definition hook_name (h : hook_call) : string :=
  match h with
  | OnHorovodCheck _ => "on_horovod_check"
  | OnSetup _ _ _ _ _ _ _ => "on_setup"
  | OnRunBegin => "on_run_begin"
  | OnRunEnd => "on_run_end"
  | OnEpochBegin _ => "on_epoch_begin"
  | OnEpochEnd _ => "on_epoch_end"
  | OnTrainBegin => "on_train_begin"
  | OnTrainEnd => "on_train_end"
  | OnValidationBegin => "on_validation_begin"
  | OnValidationEnd _ _ => "on_validation_end"
  | OnTrainBatchBegin _ _ _ => "on_train_batch_begin"
  | OnTrainBatchEnd _ _ _ _ => "on_train_batch_end"
  | OnValidationBatchBegin _ _ _ => "on_validation_batch_begin"
  | OnValidationBatchEnd _ _ _ _ => "on_validation_batch_end"
  | OnTrainLossBegin => "on_train_loss_begin"
  | OnTrainLossEnd _ => "on_train_loss_end"
  | OnValidationLossBegin => "on_validation_loss_begin"
  | OnValidationLossEnd _ => "on_validation_loss_end"
  | OnTrainMetricsBegin => "on_train_metrics_begin"
  | OnTrainMetricsEnd _ => "on_train_metrics_end"
  | OnValidationMetricsBegin => "on_validation_metrics_begin"
  | OnValidationMetricsEnd _ => "on_validation_metrics_end"
  | OnBackwardBegin => "on_backward_begin"
  | OnBackwardEnd => "on_backward_end"
  | OnOptimizerStepBegin => "on_optimizer_step_begin"
  | OnOptimizerStepEnd => "on_optimizer_step_end"
  | OnSchedulerStepBegin => "on_scheduler_step_begin"
  | OnSchedulerStepEnd => "on_scheduler_step_end"
  | OnCallCheck => "on_call_check"
  end.

(** Method dispatch on an instance of the base class. *)
Definition invoke (h : hook_call) (self : callback) : callback * value :=
  match h with
  | OnHorovodCheck rank => on_horovod_check self rank
  | OnSetup m ts vs lf o mf s => on_setup self m ts vs lf o mf s
  | OnRunBegin => on_run_begin self
  | OnRunEnd => on_run_end self
  | OnEpochBegin epoch => on_epoch_begin self epoch
  | OnEpochEnd epoch => on_epoch_end self epoch
  | OnTrainBegin => on_train_begin self
  | OnTrainEnd => on_train_end self
  | OnValidationBegin => on_validation_begin self
  | OnValidationEnd lv mv => on_validation_end self lv mv
  | OnTrainBatchBegin b x y => on_train_batch_begin self b x y
  | OnTrainBatchEnd b x y p => on_train_batch_end self b x y p
  | OnValidationBatchBegin b x y => on_validation_batch_begin self b x y
  | OnValidationBatchEnd b x y p => on_validation_batch_end self b x y p
  | OnTrainLossBegin => on_train_loss_begin self
  | OnTrainLossEnd lv => on_train_loss_end self lv
  | OnValidationLossBegin => on_validation_loss_begin self
  | OnValidationLossEnd lv => on_validation_loss_end self lv
  | OnTrainMetricsBegin => on_train_metrics_begin self
  | OnTrainMetricsEnd mv => on_train_metrics_end self mv
  | OnValidationMetricsBegin => on_validation_metrics_begin self
  | OnValidationMetricsEnd mv => on_validation_metrics_end self mv
  | OnBackwardBegin => on_backward_begin self
  | OnBackwardEnd => on_backward_end self
  | OnOptimizerStepBegin => on_optimizer_step_begin self
  | OnOptimizerStepEnd => on_optimizer_step_end self
  | OnSchedulerStepBegin => on_scheduler_step_begin self
  | OnSchedulerStepEnd => on_scheduler_step_end self
  | OnCallCheck => on_call_check self
  end.

(** The life of an instance of the base class: [__init__], then hooks. *)
Definition run_hooks (hooks : list hook_call) (self : callback) : callback :=
  foldl (fun s h => (invoke h s).1) self hooks.

(** The seven keys, and the dictionary [on_setup] is meant to leave. *)
Definition object_keys : list string :=
  [_ObjectKeys.MODEL; _ObjectKeys.TRAINING_SET; _ObjectKeys.VALIDATION_SET;
   _ObjectKeys.LOSS_FUNCTION; _ObjectKeys.OPTIMIZER; _ObjectKeys.METRIC_FUNCTIONS;
   _ObjectKeys.SCHEDULER].

Definition setup_objects
    (model training_set validation_set loss_function optimizer
       metric_functions scheduler : option value) : gmap string value :=
  list_to_map
    [(_ObjectKeys.MODEL, or_none model);
     (_ObjectKeys.TRAINING_SET, or_none training_set);
     (_ObjectKeys.VALIDATION_SET, or_none validation_set);
     (_ObjectKeys.LOSS_FUNCTION, or_none loss_function);
     (_ObjectKeys.OPTIMIZER, or_none optimizer);
     (_ObjectKeys.METRIC_FUNCTIONS, or_none metric_functions);
     (_ObjectKeys.SCHEDULER, or_none scheduler)].

(** Every hook an empty body: it returns [None] and leaves the instance as
    it was. *)
Definition hooks_are_noops : Prop :=
  forall (h : hook_call) (self : callback), invoke h self = (self, VNone).

(** An instance right after [__init__], with nothing else on it. *)
Definition fresh_callback : callback :=
  __init__ {| _objects := ∅; instance_attrs := ∅ |}.

(** [on_setup] leaving exactly the seven keys, on every instance. *)
Definition setup_leaves_exactly_seven : Prop :=
  forall (self : callback)
         (model training_set validation_set loss_function optimizer
            metric_functions scheduler : option value),
    _objects (on_setup self model training_set validation_set loss_function
                optimizer metric_functions scheduler).1
    = setup_objects model training_set validation_set loss_function optimizer
        metric_functions scheduler.

(** The hook call is a call of [on_setup]. *)
Definition is_setup (h : hook_call) : bool :=
  match h with
  | OnSetup _ _ _ _ _ _ _ => true
  | _ => false
  end.

(** An instance of a subclass that keeps an object of its own in the
    dictionary and an attribute of its own on the instance. *)
Definition subclass_callback : callback :=
  {| _objects := {[ "writer" := VRef 9 ]};
     instance_attrs := {[ "_log_dir" := VStr "logs" ]} |}.

End Callback.

(** ** frameworks/pytorch/__init__.py *)

Module PyTorch.
Import Py.

(** Keyword arguments of a call: parameter name to value. *)
Abbreviation kwargs := (gmap string value).

(** The collaborators [train] and [evaluate] call but do not implement:
    [PyTorchMLRunInterface] and the object it returns.  Each may change
    the world outside and may raise. *)
Class PyTorchMLRunInterface (world : Type) : Type := {
  init_trainer : kwargs -> world -> world * result value;
  init_evaluator : kwargs -> world -> world * result value;
  add_auto_logging_callbacks : value -> kwargs -> world -> world * result value;
  trainer_train : value -> world -> world * result value;
  evaluator_evaluate : value -> world -> world * result value
}.

(** The calls a run makes to them, as they are made. *)
Inductive call_event : Type :=
| CallInitTrainer (kw : kwargs)
| CallInitEvaluator (kw : kwargs)
| CallAddAutoLoggingCallbacks (self : value) (kw : kwargs)
| CallTrain (self : value)
| CallEvaluate (self : value).

Record state (world : Type) : Type := {
  outside : world;
  calls : list call_event
}.
Arguments outside {world} s.
Arguments calls {world} s.

(** Computations that call out, log the call, and may raise. *)
Definition M (world A : Type) : Type := state world -> state world * result A.

Definition ret {world A} (a : A) : M world A := fun s => (s, Ok a).

Definition bind {world A B} (m : M world A) (k : A -> M world B) : M world B :=
  fun s =>
    match m s with
    | (s', Ok a) => k a s'
    | (s', Raise e) => (s', Raise e)
    end.

Notation "x <- c1 ;; c2" := (bind c1 (fun x => c2))
  (at level 100, c1 at next level, right associativity).
Notation "c1 ;;; c2" := (bind c1 (fun _ => c2))
  (at level 100, right associativity).

(** A parameter with a default: [None] is an omitted argument. *)
Definition or_default (default : value) (arg : option value) : value :=
  match arg with
  | Some v => v
  | None => default
  end.

(** The parameters of [train], as the caller gives them. *)
Module Train.
Record params : Type := {
  model : value;
  training_set : value;
  loss_function : value;
  optimizer : value;
  validation_set : option value;
  metric_functions : option value;
  scheduler : option value;
  epochs : option value;
  training_iterations : option value;
  validation_iterations : option value;
  callbacks_list : option value;
  use_cuda : option value;
  use_horovod : option value;
  auto_log : option value;
  context : option value;
  custom_objects : option value
}.
End Train.

(** The parameters of [evaluate]. *)
Module Evaluate.
Record params : Type := {
  model : value;
  dataset : value;
  loss_function : option value;
  metric_functions : option value;
  iterations : option value;
  callbacks_list : option value;
  use_cuda : option value;
  use_horovod : option value;
  auto_log : option value;
  context : option value;
  custom_objects : option value
}.
End Evaluate.

Section Functions.
Context {world : Type} `{!PyTorchMLRunInterface world}.

(** The collaborator a call goes to. *)
Definition dispatch (ev : call_event) : world -> world * result value :=
  match ev with
  | CallInitTrainer kw => init_trainer kw
  | CallInitEvaluator kw => init_evaluator kw
  | CallAddAutoLoggingCallbacks self kw => add_auto_logging_callbacks self kw
  | CallTrain self => trainer_train self
  | CallEvaluate self => evaluator_evaluate self
  end.

(** Making a call: the collaborator runs on the outside world as it is, and
    the call is logged. *)
Definition perform (ev : call_event) : M world value :=
  fun s =>
    let '(w, r) := dispatch ev (outside s) in
    ({| outside := w; calls := calls s ++ [ev] |}, r).

(** The keyword arguments [train] builds for [init_trainer]. *)
Definition init_trainer_kwargs (p : Train.params) : kwargs :=
  list_to_map
    [("model", Train.model p);
     ("training_set", Train.training_set p);
     ("loss_function", Train.loss_function p);
     ("optimizer", Train.optimizer p);
     ("validation_set", or_default VNone (Train.validation_set p));
     ("metric_functions", or_default VNone (Train.metric_functions p));
     ("scheduler", or_default VNone (Train.scheduler p));
     ("epochs", or_default (VInt 1) (Train.epochs p));
     ("training_iterations", or_default VNone (Train.training_iterations p));
     ("validation_iterations", or_default VNone (Train.validation_iterations p));
     ("callbacks", or_default VNone (Train.callbacks_list p));
     ("use_cuda", or_default (VBool true) (Train.use_cuda p));
     ("use_horovod", or_default (VBool false) (Train.use_horovod p))].

(** The keyword arguments both functions give [add_auto_logging_callbacks]. *)
Definition auto_logging_kwargs (context custom_objects : option value) : kwargs :=
  list_to_map
    [("context", or_default VNone context);
     ("custom_objects", or_default VNone custom_objects)].

Definition train (p : Train.params) : M world value :=
  let auto_log := or_default (VBool true) (Train.auto_log p) in
  let kw := init_trainer_kwargs p in
  trainer <- perform (CallInitTrainer kw) ;;
  (if truthy auto_log
   then
     let akw := auto_logging_kwargs (Train.context p) (Train.custom_objects p) in
     perform (CallAddAutoLoggingCallbacks trainer akw)
   else ret VNone) ;;;
  perform (CallTrain trainer) ;;;
  ret VNone.

(** The keyword arguments [evaluate] builds for [init_evaluator]. *)
Definition init_evaluator_kwargs (p : Evaluate.params) : kwargs :=
  list_to_map
    [("model", Evaluate.model p);
     ("dataset", Evaluate.dataset p);
     ("loss_function", or_default VNone (Evaluate.loss_function p));
     ("metric_functions", or_default VNone (Evaluate.metric_functions p));
     ("iterations", or_default VNone (Evaluate.iterations p));
     ("callbacks", or_default VNone (Evaluate.callbacks_list p));
     ("use_cuda", or_default (VBool true) (Evaluate.use_cuda p));
     ("use_horovod", or_default (VBool false) (Evaluate.use_horovod p))].

Definition evaluate (p : Evaluate.params) : M world value :=
  let auto_log := or_default (VBool true) (Evaluate.auto_log p) in
  let kw := init_evaluator_kwargs p in
  evaluator <- perform (CallInitEvaluator kw) ;;
  (if truthy auto_log
   then
     let akw := auto_logging_kwargs (Evaluate.context p) (Evaluate.custom_objects p) in
     perform (CallAddAutoLoggingCallbacks evaluator akw)
   else ret VNone) ;;;
  perform (CallEvaluate evaluator).

(** A run from a fresh log. *)
Definition start (w : world) : state world := {| outside := w; calls := [] |}.

Definition calls_of {A} (m : M world A) (w : world) : list call_event :=
  calls (m (start w)).1.

End Functions.

(** *** Notions used to state the properties *)

(** The step of the run a call belongs to: initialisation, registration of
    the auto-logging callbacks, the loop. *)
Definition step_of (ev : call_event) : nat :=
  match ev with
  | CallInitTrainer _ | CallInitEvaluator _ => 0
  | CallAddAutoLoggingCallbacks _ _ => 1
  | CallTrain _ | CallEvaluate _ => 2
  end.

(** An [auto_log] argument that is [True]: given so, or left to its default. *)
Definition auto_log_true (arg : option value) : Prop :=
  arg = None \/ arg = Some (VBool true).

(** The same call with another [use_horovod] argument. *)
Definition train_with_use_horovod (flag : option value) (p : Train.params)
  : Train.params :=
  {| Train.model := Train.model p; Train.training_set := Train.training_set p;
     Train.loss_function := Train.loss_function p; Train.optimizer := Train.optimizer p;
     Train.validation_set := Train.validation_set p;
     Train.metric_functions := Train.metric_functions p;
     Train.scheduler := Train.scheduler p; Train.epochs := Train.epochs p;
     Train.training_iterations := Train.training_iterations p;
     Train.validation_iterations := Train.validation_iterations p;
     Train.callbacks_list := Train.callbacks_list p; Train.use_cuda := Train.use_cuda p;
     Train.use_horovod := flag; Train.auto_log := Train.auto_log p;
     Train.context := Train.context p; Train.custom_objects := Train.custom_objects p |}.

Definition evaluate_with_use_horovod (flag : option value) (q : Evaluate.params)
  : Evaluate.params :=
  {| Evaluate.model := Evaluate.model q; Evaluate.dataset := Evaluate.dataset q;
     Evaluate.loss_function := Evaluate.loss_function q;
     Evaluate.metric_functions := Evaluate.metric_functions q;
     Evaluate.iterations := Evaluate.iterations q;
     Evaluate.callbacks_list := Evaluate.callbacks_list q;
     Evaluate.use_cuda := Evaluate.use_cuda q;
     Evaluate.use_horovod := flag; Evaluate.auto_log := Evaluate.auto_log q;
     Evaluate.context := Evaluate.context q;
     Evaluate.custom_objects := Evaluate.custom_objects q |}.

(** Collaborators that never raise, over a world that counts the objects
    made so far. *)
#[export] Instance counting_interface : PyTorchMLRunInterface nat := {|
  init_trainer := fun _ n => (S n, Ok (VRef n));
  init_evaluator := fun _ n => (S n, Ok (VRef n));
  add_auto_logging_callbacks := fun _ _ n => (n, Ok VNone);
  trainer_train := fun _ n => (n, Ok VNone);
  evaluator_evaluate := fun _ n => (n, Ok (VList [VInt 1]))
|}.

Definition train_defaults : Train.params :=
  {| Train.model := VRef 100; Train.training_set := VRef 101;
     Train.loss_function := VRef 102; Train.optimizer := VRef 103;
     Train.validation_set := None; Train.metric_functions := None;
     Train.scheduler := None; Train.epochs := None;
     Train.training_iterations := None; Train.validation_iterations := None;
     Train.callbacks_list := None; Train.use_cuda := None;
     Train.use_horovod := None; Train.auto_log := None;
     Train.context := Some (VRef 104); Train.custom_objects := None |}.

Definition evaluate_defaults : Evaluate.params :=
  {| Evaluate.model := VRef 100; Evaluate.dataset := VRef 101;
     Evaluate.loss_function := None; Evaluate.metric_functions := None;
     Evaluate.iterations := None; Evaluate.callbacks_list := None;
     Evaluate.use_cuda := None; Evaluate.use_horovod := Some (VBool true);
     Evaluate.auto_log := Some (VBool false);
     Evaluate.context := None; Evaluate.custom_objects := None |}.

(** Collaborators whose registration of the auto-logging callbacks raises. *)
Definition failing_registration : PyTorchMLRunInterface nat := {|
  init_trainer := fun _ n => (S n, Ok (VRef n));
  init_evaluator := fun _ n => (S n, Ok (VRef n));
  add_auto_logging_callbacks := fun _ _ n => (n, Raise (Exception "no context"));
  trainer_train := fun _ n => (n, Ok VNone);
  evaluator_evaluate := fun _ n => (n, Ok (VList [VInt 1]))
|}.

(** A call of [train] that passes [auto_log=None]. *)
Definition train_auto_log_none : Train.params :=
  {| Train.model := VRef 100; Train.training_set := VRef 101;
     Train.loss_function := VRef 102; Train.optimizer := VRef 103;
     Train.validation_set := None; Train.metric_functions := None;
     Train.scheduler := None; Train.epochs := None;
     Train.training_iterations := None; Train.validation_iterations := None;
     Train.callbacks_list := None; Train.use_cuda := None;
     Train.use_horovod := None; Train.auto_log := Some VNone;
     Train.context := Some (VRef 104); Train.custom_objects := None |}.

(** What [train] makes of the outcome of the loop: the exception if it
    raised, [None] if it returned. *)
Definition none_or_raise (r : result value) : result value :=
  match r with
  | Ok _ => Ok VNone
  | Raise e => Raise e
  end.

(** Collaborators over a world that records what really ran, in order:
    each one appends its name, [init_trainer] and [init_evaluator] also
    the [use_horovod] keyword they were given. *)
Definition recording_interface : PyTorchMLRunInterface (list value) := {|
  init_trainer := fun kw l =>
    ((l ++ [VStr "init_trainer"; default VNone (kw !! "use_horovod")])%list, Ok (VRef 1));
  init_evaluator := fun kw l =>
    ((l ++ [VStr "init_evaluator"; default VNone (kw !! "use_horovod")])%list, Ok (VRef 2));
  add_auto_logging_callbacks := fun _ kw l =>
    ((l ++ [VStr "add_auto_logging_callbacks"; default VNone (kw !! "context")])%list, Ok VNone);
  trainer_train := fun _ l => ((l ++ [VStr "train"])%list, Ok (VInt 7));
  evaluator_evaluate := fun _ l => ((l ++ [VStr "evaluate"])%list, Ok (VList [VInt 1]))
|}.

End PyTorch.


(* ===================================================================== *)
(** * Part II: the properties                                             *)
(* ===================================================================== *)

(** ** Interface injection *)

Module InterfaceInjection.
Import Py MLRunInterface.

Implicit Types (model : pyobj) (cls : interface) (name : string).
Implicit Types (items : list (string * result value)).

(** *** Objects *)

Lemma dir_store_attr model name v :
  __dir__ (store_attr model name v) = {[name]} ∪ __dir__ model.
Proof.
  unfold __dir__, store_attr; simpl. rewrite dom_insert_L.
  symmetry. apply (assoc_L (∪)).
Qed.

Lemma dir_store_attr_self model name v : name ∈ __dir__ (store_attr model name v).
Proof. rewrite dir_store_attr, elem_of_union, elem_of_singleton. by left. Qed.

Lemma dir_store_attr_mono model name n v :
  name ∈ __dir__ model -> name ∈ __dir__ (store_attr model n v).
Proof. rewrite dir_store_attr, elem_of_union. by right. Qed.

Lemma dir_store_attr_other model name n v :
  name ∉ __dir__ model -> n <> name -> name ∉ __dir__ (store_attr model n v).
Proof.
  intros Hni Hne. rewrite dir_store_attr, elem_of_union, elem_of_singleton.
  intros [->|Hin]; [by apply Hne | by apply Hni].
Qed.

Lemma dir_store_attr_inv model name n v :
  name ∉ __dir__ (store_attr model n v) -> (name ∉ __dir__ model) /\ n <> name.
Proof.
  rewrite dir_store_attr, not_elem_of_union, not_elem_of_singleton.
  intros [Hne Hni]. split; [done|]. by intros ->.
Qed.

Lemma elem_of_dir model name :
  name ∈ __dir__ model <-> is_Some (getattr model name).
Proof.
  unfold __dir__, getattr. rewrite elem_of_union, !elem_of_dom.
  destruct (obj_dict model !! name) as [v|]; split.
  - eauto.
  - eauto.
  - intros [[? [=]]|H]; exact H.
  - eauto.
Qed.

Lemma not_in_dir_dict model name :
  name ∉ __dir__ model -> obj_dict model !! name = None.
Proof.
  unfold __dir__. rewrite not_elem_of_union, !not_elem_of_dom. tauto.
Qed.

Lemma in_dict_in_dir model name v :
  obj_dict model !! name = Some v -> name ∈ __dir__ model.
Proof.
  intros Hv. unfold __dir__. rewrite elem_of_union, elem_of_dom. left. eauto.
Qed.

Lemma pyobj_eq (a b : pyobj) :
  obj_id a = obj_id b -> obj_dict a = obj_dict b -> obj_class a = obj_class b ->
  obj_writable a = obj_writable b -> a = b.
Proof. destruct a, b; simpl. by intros -> -> -> ->. Qed.

(** *** One step of the attach loop *)

Lemma attach_cons_present items model name rv :
  name ∈ __dir__ model ->
  attach ((name, rv) :: items) model = attach items model.
Proof. intros Hin. simpl. by rewrite decide_True. Qed.

Lemma attach_cons_stored items model name v :
  name ∉ __dir__ model ->
  obj_writable model = true ->
  attach ((name, Ok v) :: items) model = attach items (store_attr model name v).
Proof.
  intros Hni Hw. simpl. rewrite decide_False by done.
  unfold setattr. by rewrite Hw.
Qed.

Lemma attach_cons_refused items model name v :
  name ∉ __dir__ model ->
  obj_writable model = false ->
  attach ((name, Ok v) :: items) model = (model, Raised (AttributeError name)).
Proof.
  intros Hni Hw. simpl. rewrite decide_False by done.
  unfold setattr. by rewrite Hw.
Qed.

Lemma attach_cons_raise items model name e :
  name ∉ __dir__ model ->
  attach ((name, Raise e) :: items) model = (model, Raised e).
Proof. intros Hni. simpl. by rewrite decide_False. Qed.

(** The four cases of a step, for inductions over the schedule: the name
    is present; it is stored; the object refuses it; its value raised. *)
Ltac attach_step name rv model :=
  destruct (decide (name ∈ __dir__ model)) as [Hin|Hni];
  [ rewrite !(attach_cons_present _ _ _ _ Hin)
  | destruct rv as [w|e];
    [ destruct (obj_writable model) eqn:Hw;
      [ rewrite !(attach_cons_stored _ _ _ _ Hni Hw)
      | rewrite !(attach_cons_refused _ _ _ _ Hni Hw) ]
    | rewrite !(attach_cons_raise _ _ _ _ Hni) ] ].

Lemma attach_app items items' model :
  attach (items ++ items') model = and_then (attach items model) (attach items').
Proof.
  revert model. induction items as [|[n rv] items IH]; intros model.
  - reflexivity.
  - rewrite <- app_comm_cons. attach_step n rv model; auto.
Qed.

(** *** What a run of the loop keeps *)

Lemma attach_obj_id items model : obj_id (attach items model).1 = obj_id model.
Proof.
  revert model. induction items as [|[n rv] items IH]; intros model; [done|].
  attach_step n rv model; [apply IH | by rewrite IH | done | done].
Qed.

Lemma attach_obj_class items model : obj_class (attach items model).1 = obj_class model.
Proof.
  revert model. induction items as [|[n rv] items IH]; intros model; [done|].
  attach_step n rv model; [apply IH | by rewrite IH | done | done].
Qed.

Lemma attach_obj_writable items model :
  obj_writable (attach items model).1 = obj_writable model.
Proof.
  revert model. induction items as [|[n rv] items IH]; intros model; [done|].
  attach_step n rv model; [apply IH | by rewrite IH | done | done].
Qed.

Lemma attach_dir_mono items model : __dir__ model ⊆ __dir__ (attach items model).1.
Proof.
  revert model. induction items as [|[n rv] items IH]; intros model; [done|].
  attach_step n rv model; [apply IH | | done | done].
  intros name Hname. by apply IH, dir_store_attr_mono.
Qed.

Lemma attach_frame items model name :
  name ∈ __dir__ model ->
  obj_dict (attach items model).1 !! name = obj_dict model !! name.
Proof.
  revert model. induction items as [|[n rv] items IH]; intros model Hname; [done|].
  attach_step n rv model; [by apply IH | | done | done].
  rewrite IH by (by apply dir_store_attr_mono).
  simpl. apply lookup_insert_ne. intros ->. contradiction.
Qed.

Lemma attach_idempotent items model :
  attach items (attach items model).1 = attach items model.
Proof.
  revert model. induction items as [|[n rv] items IH]; intros model; [done|].
  attach_step n rv model.
  - rewrite attach_cons_present by (by apply attach_dir_mono). apply IH.
  - rewrite attach_cons_present; [apply IH|].
    apply attach_dir_mono, dir_store_attr_self.
  - done.
  - done.
Qed.

Lemma attach_dict_subseteq items model :
  obj_dict model ⊆ obj_dict (attach items model).1.
Proof.
  apply map_subseteq_spec. intros name v Hv.
  rewrite attach_frame; [done|]. by eapply in_dict_in_dir.
Qed.

Lemma attach_all_present items model :
  Forall (fun entry => entry.1 ∈ __dir__ model) items ->
  attach items model = (model, Returned).
Proof.
  induction 1 as [|[k rv] items Hk _ IH]; [done|].
  by rewrite attach_cons_present.
Qed.

(** *** What a run of the loop attaches *)

Lemma attach_inserted items model name v :
  name ∉ __dir__ model ->
  obj_dict (attach items model).1 !! name = Some v ->
  first_entry items name = Some (Ok v).
Proof.
  revert model. induction items as [|[n rv] items IH]; intros model Hname Hv.
  - simpl in Hv. rewrite (not_in_dir_dict _ _ Hname) in Hv. discriminate.
  - simpl first_entry. revert Hv. attach_step n rv model; intros Hv.
    + rewrite decide_False by (intros ->; contradiction). by eapply IH.
    + destruct (decide (n = name)) as [->|Hne].
      * rewrite attach_frame in Hv by apply dir_store_attr_self.
        simpl in Hv. rewrite lookup_insert_eq in Hv. congruence.
      * eapply IH; [|exact Hv]. by apply dir_store_attr_other.
    + simpl in Hv. rewrite (not_in_dir_dict _ _ Hname) in Hv. discriminate.
    + simpl in Hv. rewrite (not_in_dir_dict _ _ Hname) in Hv. discriminate.
Qed.

Lemma attach_returned_lookup items model name rv :
  (attach items model).2 = Returned ->
  name ∉ __dir__ model ->
  first_entry items name = Some rv ->
  exists v, rv = Ok v /\ obj_dict (attach items model).1 !! name = Some v.
Proof.
  revert model. induction items as [|[n r] items IH]; intros model Hret Hname Hfirst.
  - discriminate.
  - simpl first_entry in Hfirst. revert Hret. attach_step n r model; intros Hret.
    + rewrite decide_False in Hfirst by (intros ->; contradiction). by apply IH.
    + destruct (decide (n = name)) as [->|Hne].
      * injection Hfirst as <-. exists w. split; [done|].
        rewrite attach_frame by apply dir_store_attr_self.
        simpl. apply lookup_insert_eq.
      * apply IH; [done| |done]. by apply dir_store_attr_other.
    + discriminate.
    + discriminate.
Qed.

Lemma attach_returned_unlisted items model name :
  name ∉ __dir__ model ->
  first_entry items name = None ->
  obj_dict (attach items model).1 !! name = None.
Proof.
  intros Hname Hfirst.
  destruct (obj_dict (attach items model).1 !! name) as [v|] eqn:Hv; [|done].
  apply attach_inserted in Hv; [congruence|done].
Qed.

(** The entry of the object after a run that returned, name by name. *)
Lemma attach_lookup items model name :
  (attach items model).2 = Returned ->
  obj_dict (attach items model).1 !! name
  = if decide (name ∈ __dir__ model) then obj_dict model !! name
    else first_entry items name ≫= ok_value.
Proof.
  intros Hret. case_decide as Hname; [by apply attach_frame|].
  destruct (first_entry items name) as [rv|] eqn:Hfirst.
  - destruct (attach_returned_lookup _ _ _ _ Hret Hname Hfirst) as (v & -> & Hv).
    exact Hv.
  - by apply attach_returned_unlisted.
Qed.

Lemma attach_dir_inv items model name :
  name ∈ __dir__ (attach items model).1 ->
  name ∈ __dir__ model \/ is_Some (first_entry items name).
Proof.
  intros Hafter. destruct (decide (name ∈ __dir__ model)) as [|Hname]; [by left|].
  right. unfold __dir__ in Hafter.
  rewrite elem_of_union, attach_obj_class, !elem_of_dom in Hafter.
  destruct Hafter as [[v Hv]|Hclass].
  - apply attach_inserted in Hv; [eauto|done].
  - exfalso. apply Hname. unfold __dir__. rewrite elem_of_union, !elem_of_dom. by right.
Qed.

(** *** When a run of the loop returns, and what it raises *)

Lemma attach_returns items model :
  obj_writable model = true ->
  Forall (fun entry => exists v, entry.2 = Ok v) items ->
  (attach items model).2 = Returned.
Proof.
  intros Hwritable Hall. revert model Hwritable.
  induction Hall as [|[n rv] items [v Hv] _ IH]; intros model Hwritable; [done|].
  simpl in Hv; subst rv. simpl. case_decide; [by apply IH|].
  unfold setattr. rewrite Hwritable. by apply IH.
Qed.

Lemma attach_returned_iff items model :
  (attach items model).2 = Returned <->
  forall name rv,
    name ∉ __dir__ model ->
    first_entry items name = Some rv ->
    obj_writable model = true /\ exists v, rv = Ok v.
Proof.
  revert model. induction items as [|[k r] items IH]; intros model.
  - split; [by intros _ name rv _|done].
  - attach_step k r model.
    + rewrite IH. split; intros Hall name rv Hname Hfirst;
        apply (Hall name rv Hname); simpl first_entry in *;
        by rewrite decide_False in * by (intros ->; contradiction).
    + rewrite IH. split; intros Hall name rv Hname Hfirst.
      * simpl first_entry in Hfirst. case_decide.
        -- injection Hfirst as <-. eauto.
        -- destruct (Hall name rv (dir_store_attr_other _ _ _ _ Hname ltac:(done)) Hfirst)
             as [_ Hok]. done.
      * apply dir_store_attr_inv in Hname as [Hname Hne].
        destruct (Hall name rv Hname) as [_ Hok]; [|done].
        simpl first_entry. by rewrite decide_False by done.
    + split; [done|]. intros Hall.
      destruct (Hall k (Ok w) Hni) as [? _]; [|done].
      simpl first_entry. by rewrite decide_True by done.
    + split; [done|]. intros Hall.
      destruct (Hall k (Raise e) Hni) as [_ [v ?]]; [|done].
      simpl first_entry. by rewrite decide_True by done.
Qed.


(** *** The source loops are runs of the attach loop *)

Lemma insert_properties_loop_attach props model :
  insert_properties_loop props model
  = attach ((fun kv => (kv.1, Ok kv.2)) <$> props) model.
Proof.
  revert model. induction props as [|[k v] props IH]; intros model; [done|].
  simpl. case_decide; [apply IH|].
  destruct (setattr model k v); [apply IH|done].
Qed.

Lemma insert_methods_loop_attach cls names model :
  insert_methods_loop cls names model
  = attach ((fun n => (n, method_value cls (obj_id model) n)) <$> names) model.
Proof.
  revert model. induction names as [|n names IH]; intros model; [done|].
  simpl. case_decide; [apply IH|].
  unfold method_value, MethodType.
  destruct (cls_getattr cls n) as [func|]; [|done].
  destruct (callable func); [|done].
  unfold setattr. destruct (obj_writable model); [|done]. by rewrite IH.
Qed.

Lemma insert_functions_loop_attach cls names model :
  insert_functions_loop cls names model
  = attach ((fun n => (n, function_value cls n)) <$> names) model.
Proof.
  revert model. induction names as [|n names IH]; intros model; [done|].
  simpl. case_decide; [apply IH|].
  unfold function_value. destruct (cls_getattr cls n) as [func|]; [|done].
  destruct (setattr model n func); [apply IH|done].
Qed.

Lemma add_interface_attach cls model :
  add_interface cls model = attach (schedule cls (obj_id model)) model.
Proof.
  unfold add_interface, schedule, _insert_properties, _insert_methods, _insert_functions.
  rewrite attach_app, insert_properties_loop_attach.
  pose proof (attach_obj_id ((fun kv => (kv.1, Ok kv.2)) <$> _PROPERTIES cls) model) as Hid.
  destruct (attach _ model) as [m1 [|e1]]; simpl in *; [|done].
  rewrite attach_app, insert_methods_loop_attach, Hid.
  destruct (attach _ m1) as [m2 [|e2]]; simpl; [|done].
  apply insert_functions_loop_attach.
Qed.

(** One interface after another is one run over both schedules. *)
Lemma add_interface_then cls cls' model :
  (add_interface cls model).2 = Returned ->
  add_interface cls' (add_interface cls model).1
  = attach (schedule cls (obj_id model) ++ schedule cls' (obj_id model)) model.
Proof.
  intros Hret. rewrite attach_app, !add_interface_attach, attach_obj_id.
  rewrite add_interface_attach in Hret.
  destruct (attach (schedule cls (obj_id model)) model) as [m1 o1].
  simpl in Hret. by subst o1.
Qed.

(** *** The first entry of a name in the schedule *)

Lemma first_entry_app items items' name :
  first_entry (items ++ items') name
  = match first_entry items name with
    | Some rv => Some rv
    | None => first_entry items' name
    end.
Proof.
  induction items as [|[k rv] items IH]; [done|].
  simpl. by case_decide.
Qed.

Lemma first_entry_properties props name :
  first_entry ((fun kv => (kv.1, Ok kv.2)) <$> props) name = Ok <$> dict_get props name.
Proof.
  induction props as [|[k v] props IH]; [done|].
  simpl. by case_decide.
Qed.

Lemma first_entry_names (g : string -> result value) names name :
  first_entry ((fun n => (n, g n)) <$> names) name
  = if decide (name ∈ names) then Some (g name) else None.
Proof.
  induction names as [|k names IH]; [done|].
  rewrite fmap_cons. simpl first_entry. destruct (decide (k = name)) as [->|Hne].
  - by rewrite decide_True by apply list_elem_of_here.
  - rewrite IH. destruct (decide (name ∈ names)) as [Hin|Hni].
    + by rewrite decide_True by (by apply list_elem_of_further).
    + rewrite decide_False; [done|].
      rewrite elem_of_cons. intros [->|?]; done.
Qed.

Lemma first_entry_schedule cls oid name :
  first_entry (schedule cls oid) name
  = match dict_get (_PROPERTIES cls) name with
    | Some v => Some (Ok v)
    | None =>
        if decide (name ∈ _METHODS cls) then Some (method_value cls oid name)
        else if decide (name ∈ _FUNCTIONS cls) then Some (function_value cls name)
        else None
    end.
Proof.
  unfold schedule. rewrite !first_entry_app, first_entry_properties, !first_entry_names.
  destruct (dict_get (_PROPERTIES cls) name); simpl; [done|].
  by case_decide.
Qed.

Lemma dict_get_is_Some props name :
  name ∈ props.*1 -> is_Some (dict_get props name).
Proof.
  induction props as [|[k v] props IH]; simpl.
  - by intros ?%elem_of_nil.
  - rewrite elem_of_cons. intros [->|Hin].
    + rewrite decide_True by done. eauto.
    + case_decide; eauto.
Qed.

Lemma dict_get_Some_elem props name v :
  dict_get props name = Some v -> name ∈ props.*1.
Proof.
  induction props as [|[k w] props IH]; simpl; [done|].
  case_decide as Hk.
  - intros _. subst k. apply list_elem_of_here.
  - intros Hget. by apply list_elem_of_further, IH.
Qed.

Lemma first_entry_listed cls oid name :
  listed cls name -> is_Some (first_entry (schedule cls oid) name).
Proof.
  intros Hlisted. rewrite first_entry_schedule.
  destruct (dict_get (_PROPERTIES cls) name) as [v|] eqn:Hget; [eauto|].
  destruct Hlisted as [Hp|[Hm|Hf]].
  - apply dict_get_is_Some in Hp. rewrite Hget in Hp. by destruct Hp.
  - rewrite decide_True by done. eauto.
  - case_decide; [eauto|]. rewrite decide_True by done. eauto.
Qed.

Lemma first_entry_schedule_listed cls oid name :
  is_Some (first_entry (schedule cls oid) name) -> listed cls name.
Proof.
  rewrite first_entry_schedule.
  destruct (dict_get (_PROPERTIES cls) name) as [v|] eqn:Hget.
  - intros _. left. by eapply dict_get_Some_elem.
  - case_decide; [intros _; right; by left|].
    case_decide; [intros _; right; by right|]. by intros [? [=]].
Qed.

Lemma schedule_names_listed cls oid name rv :
  (name, rv) ∈ schedule cls oid -> listed cls name.
Proof.
  unfold schedule, listed. rewrite !elem_of_app, !list_elem_of_fmap.
  intros [([k v] & Heq & Hin)|[(n & Heq & Hin)|(n & Heq & Hin)]];
    simpl in Heq; injection Heq as -> _.
  - left. by exists (k, v).
  - right. by left.
  - right. by right.
Qed.

(** *** An interface that defines what it lists, on an object that takes
    new attributes, never raises *)

Lemma defines_all_methods cls name :
  defines_all cls = true -> name ∈ _METHODS cls ->
  exists func, cls_getattr cls name = Some func /\ callable func = true.
Proof.
  unfold defines_all. intros [Hm _]%andb_true_iff Hin.
  rewrite forallb_forall in Hm. specialize (Hm name).
  rewrite <- list_elem_of_In in Hm. specialize (Hm Hin).
  destruct (cls_getattr cls name) as [func|]; [eauto|discriminate].
Qed.

Lemma defines_all_functions cls name :
  defines_all cls = true -> name ∈ _FUNCTIONS cls ->
  exists func, cls_getattr cls name = Some func.
Proof.
  unfold defines_all. intros [_ Hf]%andb_true_iff Hin.
  rewrite forallb_forall in Hf. specialize (Hf name).
  rewrite <- list_elem_of_In in Hf. specialize (Hf Hin).
  destruct (cls_getattr cls name) as [func|]; [eauto|discriminate].
Qed.

Lemma schedule_all_ok cls oid :
  defines_all cls = true ->
  Forall (fun entry => exists v, entry.2 = Ok v) (schedule cls oid).
Proof.
  intros Hdef. unfold schedule. repeat apply Forall_app_2.
  - apply Forall_fmap, Forall_true. intros [k v]; simpl. eauto.
  - apply Forall_fmap, Forall_forall. intros n Hin; simpl.
    destruct (defines_all_methods _ _ Hdef Hin) as (func & Hget & Hcall).
    unfold method_value. rewrite Hget, Hcall. eauto.
  - apply Forall_fmap, Forall_forall. intros n Hin; simpl.
    destruct (defines_all_functions _ _ Hdef Hin) as (func & Hget).
    unfold function_value. rewrite Hget. eauto.
Qed.

Lemma add_interface_returns cls model :
  obj_writable model = true ->
  defines_all cls = true -> (add_interface cls model).2 = Returned.
Proof.
  intros Hwritable Hdef. rewrite add_interface_attach.
  by apply attach_returns, schedule_all_ok.
Qed.

(** What the schedule holds for a name that is no property key. *)
Lemma first_entry_not_property cls oid name rv :
  dict_get (_PROPERTIES cls) name = None ->
  first_entry (schedule cls oid) name = Some rv ->
  (name ∈ _METHODS cls /\ rv = method_value cls oid name) \/
  ((name ∉ _METHODS cls) /\ name ∈ _FUNCTIONS cls /\ rv = function_value cls name).
Proof.
  intros Hget. rewrite first_entry_schedule, Hget.
  case_decide; [intros [= <-]; by left|].
  case_decide; [intros [= <-]; by right|]. done.
Qed.

Lemma method_value_ok cls oid name v :
  method_value cls oid name = Ok v <->
  exists func, cls_getattr cls name = Some func /\ callable func = true /\
               v = VMethod func oid.
Proof.
  unfold method_value. destruct (cls_getattr cls name) as [func|].
  - destruct (callable func) eqn:Hcall; split.
    + intros [= <-]. eauto.
    + by intros (? & [= <-] & _ & ->).
    + done.
    + intros (? & [= <-] & ? & _). congruence.
  - split; [done|]. by intros (? & ? & _).
Qed.

Lemma function_value_ok cls name v :
  function_value cls name = Ok v <-> cls_getattr cls name = Some v.
Proof.
  unfold function_value. destruct (cls_getattr cls name) as [func|]; split; congruence.
Qed.

(** *** The claims about [add_interface] *)

(** Membership in [__dir__] of a concrete object, by running the test the
    loops run. *)
Ltac eval_dir := apply (bool_decide_unpack _); vm_compute; exact I.

(** C1, as stated, fails in two ways.  [overlapping_interface] lists [log]
    as a property and as a method: the object gets the property's default
    value under [log], and the method pass then finds the name present and
    skips it.  And [sealed_model] takes no new attribute: the first
    [setattr] raises [AttributeError] and nothing is attached. *)
Lemma add_interface_counterexample :
  ("log" ∈ _METHODS overlapping_interface) /\
  ("log" ∉ __dir__ plain_model) /\
  obj_dict (add_interface overlapping_interface plain_model).1 !! "log" = Some (VInt 0) /\
  ~ attaches_as_listed overlapping_interface plain_model /\
  add_interface logging_interface sealed_model
  = (sealed_model, Raised (AttributeError "_context")) /\
  ~ attaches_as_listed logging_interface sealed_model.
Proof.
  split; [apply list_elem_of_here|]. split; [eval_dir|]. split; [reflexivity|].
  split; [|split; [reflexivity|]].
  - intros Hclaim. destruct (Hclaim "log") as [_ Habsent].
    destruct Habsent as (_ & Hmethod & _); [eval_dir|].
    specialize (Hmethod ltac:(apply list_elem_of_here) (VFunction "Interface.log") eq_refl).
    vm_compute in Hmethod. discriminate.
  - intros Hclaim. destruct (Hclaim "_context") as [_ Habsent].
    destruct Habsent as (Hproperty & _); [eval_dir|].
    specialize (Hproperty VNone eq_refl).
    vm_compute in Hproperty. discriminate.
Qed.

(** C1 (amended): [add_interface] returns normally exactly when every
    listed name the object lacks can be attached: the object takes new
    attributes and, for a name that is no property key, the class has the
    method (a callable) or the function to fetch.  A name already in
    [__dir__()] keeps its instance entry whatever the outcome (nothing is
    attached under it).  When [add_interface] returns, a name that was not
    in [__dir__()] holds the value of the first of [_PROPERTIES],
    [_METHODS], [_FUNCTIONS] that lists it (the default value, the method
    bound to the object, the function as retrieved), and a name no table
    lists stays absent. *)
Theorem add_interface_attaches_first_listed cls model :
  let model' := (add_interface cls model).1 in
  ((add_interface cls model).2 = Returned <->
   forall name,
     name ∉ __dir__ model ->
     listed cls name ->
     obj_writable model = true /\
     (dict_get (_PROPERTIES cls) name = None ->
      (name ∈ _METHODS cls ->
       exists func, cls_getattr cls name = Some func /\ callable func = true) /\
      (name ∉ _METHODS cls -> name ∈ _FUNCTIONS cls ->
       is_Some (cls_getattr cls name)))) /\
  (forall name,
      name ∈ __dir__ model -> obj_dict model' !! name = obj_dict model !! name) /\
  ((add_interface cls model).2 = Returned ->
   forall name,
     name ∉ __dir__ model ->
     match dict_get (_PROPERTIES cls) name with
     | Some default_value => obj_dict model' !! name = Some default_value
     | None =>
         if decide (name ∈ _METHODS cls) then
           exists func,
             cls_getattr cls name = Some func /\
             obj_dict model' !! name = Some (VMethod func (obj_id model))
         else if decide (name ∈ _FUNCTIONS cls) then
           exists func,
             cls_getattr cls name = Some func /\
             obj_dict model' !! name = Some func
         else obj_dict model' !! name = None
     end).
Proof.
  intros model'. subst model'. rewrite add_interface_attach.
  split; [|split].
  - rewrite attach_returned_iff. split.
    + intros Hall name Hname Hlisted.
      destruct (first_entry_listed cls (obj_id model) name Hlisted) as [rv Hfirst].
      destruct (Hall name rv Hname Hfirst) as [Hwritable [v ->]].
      split; [done|]. intros Hget.
      destruct (first_entry_not_property _ _ _ _ Hget Hfirst)
        as [[Hm Hv]|(Hm & Hf & Hv)]; symmetry in Hv.
      * split; [|done]. intros _.
        apply method_value_ok in Hv as (func & Hfunc & Hcall & _). eauto.
      * split; [done|]. intros _ _. apply function_value_ok in Hv. eauto.
    + intros Hall name rv Hname Hfirst.
      assert (listed cls name) as Hlisted
        by (eapply first_entry_schedule_listed; rewrite Hfirst; eauto).
      destruct (Hall name Hname Hlisted) as [Hwritable Hfetch].
      split; [done|].
      destruct (dict_get (_PROPERTIES cls) name) as [v|] eqn:Hget.
      * rewrite first_entry_schedule, Hget in Hfirst. injection Hfirst as <-. eauto.
      * destruct (Hfetch eq_refl) as [Hmethods Hfunctions].
        destruct (first_entry_not_property _ _ _ _ Hget Hfirst)
          as [[Hm ->]|(Hm & Hf & ->)].
        -- destruct (Hmethods Hm) as (func & Hfunc & Hcall).
           exists (VMethod func (obj_id model)). apply method_value_ok. eauto.
        -- destruct (Hfunctions Hm Hf) as [func Hfunc].
           exists func. by apply function_value_ok.
  - intros name. apply attach_frame.
  - intros Hret name Hname.
    pose proof (first_entry_schedule cls (obj_id model) name) as Hfirst.
    destruct (dict_get (_PROPERTIES cls) name) as [v|].
    + destruct (attach_returned_lookup _ _ _ _ Hret Hname Hfirst) as (v' & [= <-] & Hv).
      exact Hv.
    + destruct (decide (name ∈ _METHODS cls)) as [Hm|Hm].
      * destruct (attach_returned_lookup _ _ _ _ Hret Hname Hfirst) as (v' & Hok & Hv).
        apply method_value_ok in Hok as (func & Hfunc & _ & ->). eauto.
      * destruct (decide (name ∈ _FUNCTIONS cls)) as [Hf|Hf].
        -- destruct (attach_returned_lookup _ _ _ _ Hret Hname Hfirst) as (v' & Hok & Hv).
           apply function_value_ok in Hok. eauto.
        -- by apply attach_returned_unlisted.
Qed.

Lemma add_interface_attaches_first_listed_witness :
  (add_interface logging_interface plain_model).2 = Returned /\
  obj_dict (add_interface logging_interface plain_model).1 !! "_context" = Some VNone /\
  obj_dict (add_interface logging_interface plain_model).1 !! "_epoch" = Some (VInt 5).
Proof.
  destruct (add_interface_attaches_first_listed logging_interface plain_model)
    as (_ & Hkept & Hattached).
  split; [reflexivity|]. split.
  - apply (Hattached eq_refl "_context"). eval_dir.
  - rewrite (Hkept "_epoch"); [reflexivity|eval_dir].
Defined.

(** C3: a name that is in the object's [__dir__()] before [add_interface]
    keeps its attribute value: its instance entry is untouched, and so is
    what [getattr] finds under it. *)
Theorem add_interface_keeps_present cls model name :
  name ∈ __dir__ model ->
  let model' := (add_interface cls model).1 in
  obj_dict model' !! name = obj_dict model !! name /\
  getattr model' name = getattr model name.
Proof.
  intros Hname model'. subst model'. rewrite add_interface_attach.
  assert (obj_dict (attach (schedule cls (obj_id model)) model).1 !! name
          = obj_dict model !! name) as Hdict by (by apply attach_frame).
  split; [exact Hdict|].
  unfold getattr. by rewrite Hdict, attach_obj_class.
Qed.

Lemma add_interface_keeps_present_witness :
  "_epoch" ∈ __dir__ plain_model /\
  getattr (add_interface logging_interface plain_model).1 "_epoch"
  = getattr plain_model "_epoch".
Proof.
  split; [eval_dir|].
  apply (add_interface_keeps_present logging_interface plain_model "_epoch").
  eval_dir.
Defined.

(** C4: running [add_interface] again on the object it left gives the same
    object and the same outcome; and after a run that returned, every
    listed name is in the object's [__dir__()], so the second run skips
    them all. *)
Theorem add_interface_idempotent cls model :
  let once := add_interface cls model in
  add_interface cls once.1 = once /\
  (once.2 = Returned -> forall name, listed cls name -> name ∈ __dir__ once.1).
Proof.
  intros once. subst once. rewrite !add_interface_attach, attach_obj_id. split.
  - apply attach_idempotent.
  - intros Hret name Hlisted.
    destruct (decide (name ∈ __dir__ model)) as [Hin|Hni].
    + by apply attach_dir_mono.
    + destruct (first_entry_listed cls (obj_id model) name Hlisted) as [rv Hfirst].
      destruct (attach_returned_lookup _ _ _ _ Hret Hni Hfirst) as (v & _ & Hv).
      unfold __dir__. rewrite elem_of_union, elem_of_dom. left. eauto.
Qed.

Lemma add_interface_idempotent_witness :
  let once := add_interface logging_interface plain_model in
  add_interface logging_interface once.1 = once /\
  "fit" ∈ __dir__ once.1.
Proof.
  destruct (add_interface_idempotent logging_interface plain_model) as [Hsame Hdir].
  split; [exact Hsame|].
  apply Hdir; [reflexivity|].
  right; left. apply list_elem_of_further, list_elem_of_here.
Defined.

(** C10: [_insert_methods] returns exactly when the object takes new
    attributes and the class has a callable under every listed name the
    object lacks; it then has put each of them on the object as the class
    attribute bound to the object.  Whatever the outcome, a name it put on
    the object holds such a bound method, whose call passes the object
    first.  [_insert_functions] returns exactly when the object takes new
    attributes and the class has every listed name the object lacks; it
    then has put each on the object as the class attribute itself, and a
    name it put on the object holds the class attribute as [getattr]
    returned it, called with the caller's arguments only. *)
Theorem inserted_methods_bound_functions_plain cls model :
  let after_methods := _insert_methods model cls in
  let after_functions := _insert_functions model cls in
  (after_methods.2 = Returned <->
   forall name,
     name ∈ _METHODS cls -> name ∉ __dir__ model ->
     obj_writable model = true /\
     exists func, cls_getattr cls name = Some func /\ callable func = true) /\
  (after_methods.2 = Returned ->
   forall name,
     name ∈ _METHODS cls -> name ∉ __dir__ model ->
     exists func,
       cls_getattr cls name = Some func /\
       obj_dict after_methods.1 !! name = Some (VMethod func (obj_id model))) /\
  (forall name v,
      name ∉ __dir__ model ->
      obj_dict after_methods.1 !! name = Some v ->
      exists func,
        cls_getattr cls name = Some func /\
        v = VMethod func (obj_id model) /\
        forall args, call v args = call func (VRef (obj_id model) :: args)) /\
  (after_functions.2 = Returned <->
   forall name,
     name ∈ _FUNCTIONS cls -> name ∉ __dir__ model ->
     obj_writable model = true /\ is_Some (cls_getattr cls name)) /\
  (after_functions.2 = Returned ->
   forall name,
     name ∈ _FUNCTIONS cls -> name ∉ __dir__ model ->
     exists func,
       cls_getattr cls name = Some func /\
       obj_dict after_functions.1 !! name = Some func) /\
  (forall name v,
      name ∉ __dir__ model ->
      obj_dict after_functions.1 !! name = Some v ->
      cls_getattr cls name = Some v /\
      forall qualname args, v = VFunction qualname -> call v args = Some (qualname, args)).
Proof.
  intros after_methods after_functions. subst after_methods after_functions.
  unfold _insert_methods, _insert_functions.
  rewrite insert_methods_loop_attach, insert_functions_loop_attach.
  assert (forall (g : string -> result value) names name,
             name ∈ names ->
             first_entry ((fun n => (n, g n)) <$> names) name = Some (g name)) as Hin_first
    by (intros g names name Hin; rewrite first_entry_names; by rewrite decide_True).
  split; [|split; [|split; [|split; [|split]]]].
  - rewrite attach_returned_iff. split.
    + intros Hall name Hin Hname.
      destruct (Hall name _ Hname (Hin_first _ _ _ Hin)) as [Hwritable [v Hv]].
      split; [done|]. apply method_value_ok in Hv as (func & ? & ? & _). eauto.
    + intros Hall name rv Hname. rewrite first_entry_names.
      case_decide as Hin; [|done]. intros [= <-].
      destruct (Hall name Hin Hname) as [Hwritable (func & Hfunc & Hcall)].
      split; [done|]. exists (VMethod func (obj_id model)). apply method_value_ok. eauto.
  - intros Hret name Hin Hname.
    destruct (attach_returned_lookup _ _ _ _ Hret Hname (Hin_first _ _ _ Hin))
      as (v & Hok & Hv).
    apply method_value_ok in Hok as (func & Hfunc & _ & ->). eauto.
  - intros name v Hname Hv. apply attach_inserted in Hv; [|done].
    rewrite first_entry_names in Hv. case_decide; [|discriminate].
    injection Hv as Hv. apply method_value_ok in Hv as (func & Hfunc & _ & ->).
    exists func. by repeat split.
  - rewrite attach_returned_iff. split.
    + intros Hall name Hin Hname.
      destruct (Hall name _ Hname (Hin_first _ _ _ Hin)) as [Hwritable [v Hv]].
      split; [done|]. apply function_value_ok in Hv. eauto.
    + intros Hall name rv Hname. rewrite first_entry_names.
      case_decide as Hin; [|done]. intros [= <-].
      destruct (Hall name Hin Hname) as [Hwritable [func Hfunc]].
      split; [done|]. exists func. by apply function_value_ok.
  - intros Hret name Hin Hname.
    destruct (attach_returned_lookup _ _ _ _ Hret Hname (Hin_first _ _ _ Hin))
      as (v & Hok & Hv).
    apply function_value_ok in Hok. eauto.
  - intros name v Hname Hv. apply attach_inserted in Hv; [|done].
    rewrite first_entry_names in Hv. case_decide; [|discriminate].
    injection Hv as Hv. apply function_value_ok in Hv.
    split; [done|]. by intros qualname args ->.
Qed.

Lemma inserted_methods_bound_functions_plain_witness :
  (_insert_methods plain_model logging_interface).2 = Returned /\
  (exists func,
      cls_getattr logging_interface "fit" = Some func /\
      obj_dict (_insert_methods plain_model logging_interface).1 !! "fit"
      = Some (VMethod func 7)) /\
  call (VMethod (VFunction "Interface.fit") 7) [VInt 3]
  = Some ("Interface.fit", [VRef 7; VInt 3]) /\
  (exists func,
      cls_getattr logging_interface "helper" = Some func /\
      obj_dict (_insert_functions plain_model logging_interface).1 !! "helper"
      = Some func) /\
  call (VFunction "Interface.helper") [VInt 3] = Some ("Interface.helper", [VInt 3]).
Proof.
  destruct (inserted_methods_bound_functions_plain logging_interface plain_model)
    as (_ & Hmethods & Hbound & _ & Hfunctions & Hplain).
  split; [reflexivity|]. split; [|split; [|split]].
  - apply (Hmethods eq_refl "fit");
      [apply list_elem_of_further, list_elem_of_here | eval_dir].
  - destruct (Hbound "fit" (VMethod (VFunction "Interface.fit") 7))
      as (func & _ & Hv & Hcall); [eval_dir | reflexivity |].
    rewrite Hcall. injection Hv as <-. reflexivity.
  - apply (Hfunctions eq_refl "helper"); [apply list_elem_of_here | eval_dir].
  - destruct (Hplain "helper" (VFunction "Interface.helper")) as [_ Hcall];
      [eval_dir | reflexivity |].
    by apply Hcall.
Defined.

(** *** Further properties of [add_interface] *)



(** X3: on an object that takes new attributes the property pass cannot
    fail, so whatever the outcome of [add_interface], a property key the
    object lacked holds its default value afterwards, also when the method
    or function pass raised. *)
Theorem properties_attached_whatever_follows cls model name default_value :
  obj_writable model = true ->
  name ∉ __dir__ model ->
  dict_get (_PROPERTIES cls) name = Some default_value ->
  obj_dict (add_interface cls model).1 !! name = Some default_value.
Proof.
  intros Hwritable Hname Hget. rewrite add_interface_attach. unfold schedule.
  rewrite attach_app.
  set (props := (fun kv => (kv.1, Ok kv.2)) <$> _PROPERTIES cls).
  assert ((attach props model).2 = Returned) as Hret.
  { apply attach_returns; [done|].
    apply Forall_fmap, Forall_true. intros [k v]; simpl. eauto. }
  assert (first_entry props name = Some (Ok default_value)) as Hfirst.
  { subst props. by rewrite first_entry_properties, Hget. }
  destruct (attach_returned_lookup _ _ _ _ Hret Hname Hfirst) as (v & [= <-] & Hv).
  destruct (attach props model) as [m1 o1]. simpl in Hret, Hv. subst o1. simpl.
  rewrite attach_frame; [done|]. by eapply in_dict_in_dir.
Qed.

Lemma properties_attached_whatever_follows_witness :
  (add_interface broken_interface plain_model).2 = Raised (AttributeError "missing") /\
  obj_dict (add_interface broken_interface plain_model).1 !! "_context" = Some VNone.
Proof.
  split; [reflexivity|].
  apply (properties_attached_whatever_follows broken_interface plain_model "_context");
    [reflexivity | eval_dir | reflexivity].
Defined.

(** X4: whatever its outcome, [add_interface] only adds to the object: the
    identity and the class attributes are the same, every instance entry
    is kept, and a name found on the object afterwards was there before or
    is listed by the interface. *)
Theorem add_interface_only_grows cls model :
  let model' := (add_interface cls model).1 in
  obj_id model' = obj_id model /\
  obj_class model' = obj_class model /\
  obj_dict model ⊆ obj_dict model' /\
  forall name, name ∈ __dir__ model' -> name ∈ __dir__ model \/ listed cls name.
Proof.
  intros model'. subst model'. rewrite add_interface_attach.
  split; [apply attach_obj_id|]. split; [apply attach_obj_class|].
  split; [apply attach_dict_subseteq|].
  intros name [Hbefore|Hfirst]%attach_dir_inv; [by left|].
  right. by eapply first_entry_schedule_listed.
Qed.

(** X5: on an object that already has every listed name, [add_interface]
    returns the object as it is and cannot raise, whether or not the class
    defines the listed methods and functions. *)
Theorem add_interface_noop_when_present cls model :
  (forall name, listed cls name -> name ∈ __dir__ model) ->
  add_interface cls model = (model, Returned).
Proof.
  intros Hall. rewrite add_interface_attach. apply attach_all_present.
  apply Forall_forall. intros [k rv] Hin. simpl.
  by eapply Hall, schedule_names_listed.
Qed.

Lemma add_interface_noop_when_present_witness :
  defines_all present_only_interface = false /\
  add_interface present_only_interface plain_model = (plain_model, Returned).
Proof.
  split; [reflexivity|].
  apply (add_interface_noop_when_present present_only_interface plain_model).
  intros name [Hin|[Hin|Hin]]; simpl in Hin;
    apply list_elem_of_singleton in Hin; subst name; eval_dir.
Defined.

(** X6: on an object that takes new attributes, two interfaces that define
    what they list, and share no listed name the object lacks, can be
    added in either order: the object is the same. *)
Theorem add_interface_commutes cls cls' model :
  obj_writable model = true ->
  defines_all cls = true ->
  defines_all cls' = true ->
  (forall name, listed cls name -> listed cls' name -> name ∈ __dir__ model) ->
  add_interface cls' (add_interface cls model).1
  = add_interface cls (add_interface cls' model).1.
Proof.
  intros Hwritable Hdef Hdef' Hapart.
  rewrite !add_interface_then by (by apply add_interface_returns).
  set (sa := schedule cls (obj_id model)). set (sb := schedule cls' (obj_id model)).
  assert ((attach (sa ++ sb) model).2 = Returned) as Hab
    by (apply attach_returns; [done|]; apply Forall_app_2; by apply schedule_all_ok).
  assert ((attach (sb ++ sa) model).2 = Returned) as Hba
    by (apply attach_returns; [done|]; apply Forall_app_2; by apply schedule_all_ok).
  assert ((attach (sa ++ sb) model).1 = (attach (sb ++ sa) model).1) as Hobj.
  { apply pyobj_eq.
    - by rewrite !attach_obj_id.
    - apply map_eq. intros name. rewrite !attach_lookup by done.
      case_decide as Hname; [done|]. rewrite !first_entry_app.
      destruct (first_entry sa name) as [ra|] eqn:Ha,
               (first_entry sb name) as [rb|] eqn:Hb; try done.
      exfalso. apply Hname, Hapart.
      + apply (first_entry_schedule_listed cls (obj_id model)). subst sa. by rewrite Ha.
      + apply (first_entry_schedule_listed cls' (obj_id model)). subst sb. by rewrite Hb.
    - by rewrite !attach_obj_class.
    - by rewrite !attach_obj_writable. }
  destruct (attach (sa ++ sb) model) as [m1 o1], (attach (sb ++ sa) model) as [m2 o2].
  simpl in *. by subst.
Qed.

Lemma add_interface_commutes_witness :
  add_interface metrics_interface (add_interface logging_interface plain_model).1
  = add_interface logging_interface (add_interface metrics_interface plain_model).1.
Proof.
  apply (add_interface_commutes logging_interface metrics_interface plain_model);
    [reflexivity | reflexivity | reflexivity |].
  intros name Ha Hb. exfalso. unfold listed in Ha, Hb. simpl in Ha, Hb.
  repeat match goal with
         | H : _ \/ _ |- _ => destruct H
         | H : False |- _ => destruct H
         | H : _ ∈ _ :: _ |- _ => apply elem_of_cons in H
         | H : _ ∈ [] |- _ => apply elem_of_nil in H
         end; subst; discriminate.
Defined.

End InterfaceInjection.

(** ** Callback hooks *)

Module CallbackHooks.
Import Py Callback.

Implicit Types (self : callback) (h : hook_call).

Ltac unfold_keys :=
  unfold _ObjectKeys.MODEL, _ObjectKeys.TRAINING_SET, _ObjectKeys.VALIDATION_SET,
    _ObjectKeys.LOSS_FUNCTION, _ObjectKeys.OPTIMIZER, _ObjectKeys.METRIC_FUNCTIONS,
    _ObjectKeys.SCHEDULER in *.

(** *** [on_setup] *)

Lemma setup_objects_dom m ts vs lf o mf s :
  dom (setup_objects m ts vs lf o mf s) = list_to_set object_keys.
Proof. unfold setup_objects. by rewrite dom_list_to_map_L. Qed.

Lemma setup_objects_lookup_None m ts vs lf o mf s key :
  setup_objects m ts vs lf o mf s !! key = None <-> key ∉ object_keys.
Proof.
  rewrite <- not_elem_of_dom, setup_objects_dom.
  by rewrite elem_of_list_to_set.
Qed.

(** [on_setup] overwrites the seven keys and keeps every other key. *)
Lemma on_setup_objects_union self m ts vs lf o mf s :
  _objects (on_setup self m ts vs lf o mf s).1
  = setup_objects m ts vs lf o mf s ∪ _objects self.
Proof.
  apply map_eq. intros key. rewrite lookup_union.
  unfold on_setup, set_object, setup_objects; simpl. unfold_keys.
  rewrite !lookup_insert, lookup_empty.
  repeat case_decide; simplify_eq; simpl; try done.
  all: match goal with |- _ = _ ∪ ?old => by destruct old end.
Qed.

Lemma on_setup_instance_attrs self m ts vs lf o mf s :
  instance_attrs (on_setup self m ts vs lf o mf s).1 = instance_attrs self.
Proof. reflexivity. Qed.

(** *** The objects dictionary over the life of an instance *)

Lemma invoke_objects_keys h self :
  dom (_objects self) ⊆ list_to_set object_keys ->
  dom (_objects (invoke h self).1) ⊆ list_to_set object_keys.
Proof.
  intros Hdom. destruct h; try exact Hdom.
  simpl invoke. rewrite on_setup_objects_union, dom_union_L, setup_objects_dom.
  by apply union_least.
Qed.

Lemma run_hooks_objects_keys hooks self :
  dom (_objects self) ⊆ list_to_set object_keys ->
  dom (_objects (run_hooks hooks self)) ⊆ list_to_set object_keys.
Proof.
  revert self. induction hooks as [|h hooks IH]; intros self Hdom; [done|].
  simpl. by apply IH, invoke_objects_keys.
Qed.

Lemma init_objects_keys self :
  dom (_objects (__init__ self)) ⊆ list_to_set object_keys.
Proof. simpl. rewrite dom_empty_L. apply empty_subseteq. Qed.

(** *** The claims about the hooks *)

(** C2, as stated, fails on two of the listed hooks: [on_call_check]
    returns [True], and [on_setup] writes the objects dictionary. *)
Lemma default_hooks_counterexample :
  (invoke OnCallCheck fresh_callback).2 = VBool true /\
  _objects (invoke (OnSetup (Some (VRef 1)) None None None None None None)
                   fresh_callback).1 !! "model" = Some (VRef 1) /\
  _objects fresh_callback !! "model" = None /\
  ~ hooks_are_noops.
Proof.
  split; [reflexivity|]. split; [reflexivity|]. split; [reflexivity|].
  intros Hclaim. specialize (Hclaim OnCallCheck fresh_callback). discriminate.
Qed.

(** C2 (amended): every hook of the base class other than [on_setup] and
    [on_call_check], invoked on any instance with any arguments, returns
    [None] and leaves the instance unchanged. *)
Theorem default_hooks_are_noops h self :
  hook_name h <> "on_setup" ->
  hook_name h <> "on_call_check" ->
  invoke h self = (self, VNone).
Proof.
  intros Hsetup Hcheck. destruct h; simpl in *; (reflexivity || contradiction).
Qed.

Lemma default_hooks_are_noops_witness :
  invoke (OnTrainBatchEnd (VInt 3) (VRef 1) (VRef 2) (VRef 3)) fresh_callback
  = (fresh_callback, VNone).
Proof.
  apply (default_hooks_are_noops
           (OnTrainBatchEnd (VInt 3) (VRef 1) (VRef 2) (VRef 3)) fresh_callback);
    simpl; discriminate.
Defined.

(** C8: the default [on_call_check] returns [True] on every instance,
    whatever hooks ran on it before, and leaves the instance unchanged; the
    value is truthy for the caller that tests it. *)
Theorem on_call_check_approves self hooks :
  let current := run_hooks hooks self in
  on_call_check current = (current, VBool true) /\
  invoke OnCallCheck current = (current, VBool true) /\
  truthy (on_call_check current).2 = true.
Proof. intros current. by repeat split. Qed.

(** C9, as stated, fails on an instance whose dictionary holds a key of its
    own: [on_setup] assigns the seven keys and leaves the others, so
    [subclass_callback] still holds [writer] afterwards. *)
Lemma on_setup_counterexample :
  ("writer" ∉ object_keys) /\
  _objects (on_setup subclass_callback (Some (VRef 1)) None None None None None None).1
    !! "writer" = Some (VRef 9) /\
  setup_objects (Some (VRef 1)) None None None None None None !! "writer" = None /\
  ~ setup_leaves_exactly_seven.
Proof.
  split; [apply (bool_decide_unpack _); vm_compute; exact I|].
  split; [reflexivity|]. split; [reflexivity|].
  intros Hclaim.
  specialize (Hclaim subclass_callback (Some (VRef 1)) None None None None None None).
  apply (f_equal (fun d => d !! "writer")) in Hclaim. discriminate Hclaim.
Qed.

(** C9 (amended): on any instance, [on_setup] leaves each of the seven keys
    bound to its argument, [None] for each omitted one, whatever was
    stored under it; every other key of [_objects] and every other
    attribute is kept.  So [_objects] holds exactly the seven keys when it
    held no other key before, as on an instance initialised by [__init__]
    and driven by the hooks of the base class. *)
Theorem on_setup_overwrites_seven_keeps_rest self m ts vs lf o mf s :
  let after := (on_setup self m ts vs lf o mf s).1 in
  _objects after !! "model" = Some (or_none m) /\
  _objects after !! "training_set" = Some (or_none ts) /\
  _objects after !! "validation_set" = Some (or_none vs) /\
  _objects after !! "loss_function" = Some (or_none lf) /\
  _objects after !! "optimizer" = Some (or_none o) /\
  _objects after !! "metric_functions" = Some (or_none mf) /\
  _objects after !! "scheduler" = Some (or_none s) /\
  (forall key, key ∉ object_keys -> _objects after !! key = _objects self !! key) /\
  instance_attrs after = instance_attrs self /\
  (dom (_objects self) ⊆ list_to_set object_keys ->
   _objects after = setup_objects m ts vs lf o mf s) /\
  (forall hooks self0,
      self = run_hooks hooks (__init__ self0) ->
      _objects after = setup_objects m ts vs lf o mf s).
Proof.
  intros after.
  assert (forall key v,
             setup_objects m ts vs lf o mf s !! key = Some v ->
             _objects after !! key = Some v) as Hset.
  { intros key v Hkey. subst after.
    rewrite on_setup_objects_union, lookup_union, Hkey.
    by destruct (_objects self !! key). }
  assert (dom (_objects self) ⊆ list_to_set object_keys ->
          _objects after = setup_objects m ts vs lf o mf s) as Hexact.
  { intros Hdom. apply map_eq. intros key.
    destruct (setup_objects m ts vs lf o mf s !! key) as [v|] eqn:Hkey; [by apply Hset|].
    subst after. rewrite on_setup_objects_union, lookup_union, Hkey.
    apply setup_objects_lookup_None in Hkey.
    assert (_objects self !! key = None) as ->; [|done].
    apply not_elem_of_dom. intros Hin. apply Hdom in Hin.
    by apply elem_of_list_to_set in Hin. }
  repeat (split; [by apply Hset|]).
  split; [|split; [done|split; [exact Hexact|]]].
  - intros key Hkey. subst after.
    rewrite on_setup_objects_union, lookup_union.
    by rewrite (proj2 (setup_objects_lookup_None _ _ _ _ _ _ _ key) Hkey),
      (left_id_L None _).
  - intros hooks self0 ->. apply Hexact, run_hooks_objects_keys, init_objects_keys.
Qed.

Lemma on_setup_overwrites_seven_keeps_rest_witness :
  _objects (on_setup subclass_callback (Some (VRef 1)) None None None None None None).1
    !! "model" = Some (VRef 1) /\
  _objects (on_setup subclass_callback (Some (VRef 1)) None None None None None None).1
    !! "scheduler" = Some VNone /\
  _objects (on_setup fresh_callback (Some (VRef 1)) None None None None None None).1
  = setup_objects (Some (VRef 1)) None None None None None None.
Proof.
  destruct (on_setup_overwrites_seven_keeps_rest subclass_callback
              (Some (VRef 1)) None None None None None None)
    as (Hmodel & _ & _ & _ & _ & _ & Hscheduler & _).
  destruct (on_setup_overwrites_seven_keeps_rest fresh_callback
              (Some (VRef 1)) None None None None None None)
    as (_ & _ & _ & _ & _ & _ & _ & _ & _ & _ & Hfresh).
  split; [exact Hmodel|]. split; [exact Hscheduler|].
  apply (Hfresh [] {| _objects := ∅; instance_attrs := ∅ |}). reflexivity.
Defined.

(** *** Further properties of the hooks *)

Ltac by_decide := apply (bool_decide_unpack _); vm_compute; exact I.

Lemma run_hooks_app hooks hooks' self :
  run_hooks (hooks ++ hooks') self = run_hooks hooks' (run_hooks hooks self).
Proof. apply foldl_app. Qed.

Lemma run_hooks_cons h hooks self :
  run_hooks (h :: hooks) self = run_hooks hooks (invoke h self).1.
Proof. reflexivity. Qed.

Lemma invoke_not_setup h self : is_setup h = false -> (invoke h self).1 = self.
Proof. by destruct h. Qed.

Lemma setup_objects_lookup_is_Some m ts vs lf o mf s key :
  key ∈ object_keys -> is_Some (setup_objects m ts vs lf o mf s !! key).
Proof.
  intros Hkey. apply not_eq_None_Some. intros Hnone.
  by apply setup_objects_lookup_None in Hnone.
Qed.

(** X7: over any run of hooks of the base class, on any instance, the
    attributes other than [_objects] stay as they were, and so does every
    key of [_objects] other than the seven of [_ObjectKeys]. *)
Theorem hooks_keep_other_state hooks self key :
  key ∉ object_keys ->
  instance_attrs (run_hooks hooks self) = instance_attrs self /\
  _objects (run_hooks hooks self) !! key = _objects self !! key.
Proof.
  intros Hkey. revert self. induction hooks as [|h hooks IH]; intros self; [done|].
  simpl. destruct (IH (invoke h self).1) as [-> ->].
  destruct (is_setup h) eqn:Hsetup; [|by rewrite invoke_not_setup].
  destruct h; try discriminate. simpl invoke.
  split; [done|]. rewrite on_setup_objects_union, lookup_union.
  by rewrite (proj2 (setup_objects_lookup_None _ _ _ _ _ _ _ key) Hkey), (left_id_L None _).
Qed.

Lemma hooks_keep_other_state_witness :
  ("writer" ∉ object_keys) /\
  _objects (run_hooks [OnSetup (Some (VRef 1)) None None None None None None; OnRunEnd]
                      subclass_callback) !! "writer" = Some (VRef 9).
Proof.
  split; [by_decide|].
  apply (hooks_keep_other_state
           [OnSetup (Some (VRef 1)) None None None None None None; OnRunEnd]
           subclass_callback "writer").
  by_decide.
Defined.

Lemma hooks_without_setup_change_nothing_aux hooks self :
  Forall (fun h => is_setup h = false) hooks ->
  run_hooks hooks self = self.
Proof.
  intros Hall. revert self.
  induction Hall as [|h hooks Hh _ IH]; intros self; [done|].
  simpl. rewrite invoke_not_setup by done. apply IH.
Qed.

(** X8: a run of hooks with no [on_setup] among them leaves the instance
    exactly as it was: its [_objects] and every other attribute; only
    [on_setup] ever writes. *)
Theorem hooks_without_setup_change_nothing hooks self :
  Forall (fun h => is_setup h = false) hooks ->
  run_hooks hooks self = self /\
  forall h, h ∈ hooks -> (invoke h self).1 = self.
Proof.
  intros Hall. split; [by apply hooks_without_setup_change_nothing_aux|].
  intros h Hin. apply invoke_not_setup. by eapply Forall_forall in Hall.
Qed.

Lemma hooks_without_setup_change_nothing_witness :
  run_hooks [OnRunBegin; OnEpochBegin (VInt 0); OnCallCheck; OnHorovodCheck (VInt 0)]
            subclass_callback
  = subclass_callback.
Proof.
  destruct (hooks_without_setup_change_nothing
              [OnRunBegin; OnEpochBegin (VInt 0); OnCallCheck; OnHorovodCheck (VInt 0)]
              subclass_callback) as [Hsame _]; [repeat constructor|].
  exact Hsame.
Defined.

(** X9: the last [on_setup] of a run decides the seven keys: after it and
    any hooks other than [on_setup], each of the seven keys holds the
    argument of that call ([None] when omitted), whatever earlier calls and
    the instance had stored. *)
Theorem last_setup_decides before after self m ts vs lf o mf s key :
  Forall (fun h => is_setup h = false) after ->
  key ∈ object_keys ->
  _objects (run_hooks (before ++ OnSetup m ts vs lf o mf s :: after) self) !! key
  = setup_objects m ts vs lf o mf s !! key.
Proof.
  intros Hafter Hkey. rewrite run_hooks_app, run_hooks_cons.
  rewrite (hooks_without_setup_change_nothing_aux after) by done.
  unfold invoke. rewrite on_setup_objects_union, lookup_union.
  destruct (setup_objects_lookup_is_Some m ts vs lf o mf s key Hkey) as [v ->].
  by destruct (_objects (run_hooks before self) !! key).
Qed.

Lemma last_setup_decides_witness :
  _objects (run_hooks [OnSetup (Some (VRef 1)) (Some (VRef 2)) None None None None None;
                       OnSetup (Some (VRef 5)) None None None None None None;
                       OnEpochEnd (VInt 0)]
                      subclass_callback) !! "training_set" = Some VNone.
Proof.
  exact (last_setup_decides
           [OnSetup (Some (VRef 1)) (Some (VRef 2)) None None None None None]
           [OnEpochEnd (VInt 0)] subclass_callback
           (Some (VRef 5)) None None None None None None "training_set"
           ltac:(repeat constructor) ltac:(by_decide)).
Defined.

End CallbackHooks.

(** ** The train and evaluate entry points *)

Module TrainEvaluate.
Import Py PyTorch.

Section Traces.
Context {world : Type} `{!PyTorchMLRunInterface world}.

Implicit Types (w : world) (p : Train.params) (q : Evaluate.params).

(** What a run of [train] comes to, read off the collaborators' answers:
    each collaborator runs on the world the one before it left. *)
Lemma train_denotation p w :
  train p (start w) =
  let kw := init_trainer_kwargs p in
  let akw := auto_logging_kwargs (Train.context p) (Train.custom_objects p) in
  match init_trainer kw w with
  | (w1, Raise exc) => ({| outside := w1; calls := [CallInitTrainer kw] |}, Raise exc)
  | (w1, Ok trainer) =>
      if truthy (or_default (VBool true) (Train.auto_log p)) then
        match add_auto_logging_callbacks trainer akw w1 with
        | (w2, Raise exc) =>
            ({| outside := w2;
                calls := [CallInitTrainer kw; CallAddAutoLoggingCallbacks trainer akw] |},
             Raise exc)
        | (w2, Ok _) =>
            ({| outside := (trainer_train trainer w2).1;
                calls := [CallInitTrainer kw; CallAddAutoLoggingCallbacks trainer akw;
                          CallTrain trainer] |},
             none_or_raise (trainer_train trainer w2).2)
        end
      else
        ({| outside := (trainer_train trainer w1).1;
            calls := [CallInitTrainer kw; CallTrain trainer] |},
         none_or_raise (trainer_train trainer w1).2)
  end.
Proof.
  unfold train, bind, perform, ret, start; simpl.
  destruct (init_trainer _ w) as [w1 [trainer|e]]; simpl; [|done].
  destruct (truthy _); simpl.
  - destruct (add_auto_logging_callbacks _ _ w1) as [w2 [r|e]]; simpl; [|done].
    by destruct (trainer_train trainer w2) as [w3 [r'|e]].
  - by destruct (trainer_train trainer w1) as [w3 [r'|e]].
Qed.

(** What a run of [evaluate] comes to. *)
Lemma evaluate_denotation q w :
  evaluate q (start w) =
  let kw := init_evaluator_kwargs q in
  let akw := auto_logging_kwargs (Evaluate.context q) (Evaluate.custom_objects q) in
  match init_evaluator kw w with
  | (w1, Raise exc) => ({| outside := w1; calls := [CallInitEvaluator kw] |}, Raise exc)
  | (w1, Ok evaluator) =>
      if truthy (or_default (VBool true) (Evaluate.auto_log q)) then
        match add_auto_logging_callbacks evaluator akw w1 with
        | (w2, Raise exc) =>
            ({| outside := w2;
                calls := [CallInitEvaluator kw;
                          CallAddAutoLoggingCallbacks evaluator akw] |},
             Raise exc)
        | (w2, Ok _) =>
            ({| outside := (evaluator_evaluate evaluator w2).1;
                calls := [CallInitEvaluator kw; CallAddAutoLoggingCallbacks evaluator akw;
                          CallEvaluate evaluator] |},
             (evaluator_evaluate evaluator w2).2)
        end
      else
        ({| outside := (evaluator_evaluate evaluator w1).1;
            calls := [CallInitEvaluator kw; CallEvaluate evaluator] |},
         (evaluator_evaluate evaluator w1).2)
  end.
Proof.
  unfold evaluate, bind, perform, ret, start; simpl.
  destruct (init_evaluator _ w) as [w1 [evaluator|e]]; simpl; [|done].
  destruct (truthy _); simpl.
  - destruct (add_auto_logging_callbacks _ _ w1) as [w2 [r|e]]; simpl; [|done].
    by destruct (evaluator_evaluate evaluator w2) as [w3 [r'|e]].
  - by destruct (evaluator_evaluate evaluator w1) as [w3 [r'|e]].
Qed.

Lemma auto_log_true_truthy arg :
  auto_log_true arg -> truthy (or_default (VBool true) arg) = true.
Proof. by intros [->| ->]. Qed.

(** The keywords of the registration, written out. *)
Lemma auto_logging_kwargs_spelled context custom_objects :
  auto_logging_kwargs context custom_objects
  = {[ "context" := or_default VNone context;
       "custom_objects" := or_default VNone custom_objects ]}.
Proof. reflexivity. Qed.

(** *** The claims about [train] and [evaluate] *)

(** C5: once the trainer (evaluator) is initialised, with [auto_log] true
    (given or by default) its [add_auto_logging_callbacks] really runs
    next, on the world the initialisation left and with the caller's
    [context] and [custom_objects], and the loop runs on the world the
    registration left (or not at all if it raised); with [auto_log=False]
    the loop runs on the world the initialisation left:
    [add_auto_logging_callbacks] has not run. *)
Theorem auto_log_registers_callbacks p q w :
  (forall w1 trainer,
      init_trainer (init_trainer_kwargs p) w = (w1, Ok trainer) ->
      let akw : kwargs :=
        {[ "context" := or_default VNone (Train.context p);
           "custom_objects" := or_default VNone (Train.custom_objects p) ]} in
      (auto_log_true (Train.auto_log p) ->
       match add_auto_logging_callbacks trainer akw w1 with
       | (w2, Raise exc) =>
           train p (start w)
           = ({| outside := w2;
                 calls := [CallInitTrainer (init_trainer_kwargs p);
                           CallAddAutoLoggingCallbacks trainer akw] |},
              Raise exc)
       | (w2, Ok _) =>
           train p (start w)
           = ({| outside := (trainer_train trainer w2).1;
                 calls := [CallInitTrainer (init_trainer_kwargs p);
                           CallAddAutoLoggingCallbacks trainer akw;
                           CallTrain trainer] |},
              none_or_raise (trainer_train trainer w2).2)
       end) /\
      (Train.auto_log p = Some (VBool false) ->
       train p (start w)
       = ({| outside := (trainer_train trainer w1).1;
             calls := [CallInitTrainer (init_trainer_kwargs p); CallTrain trainer] |},
          none_or_raise (trainer_train trainer w1).2))) /\
  (forall w1 evaluator,
      init_evaluator (init_evaluator_kwargs q) w = (w1, Ok evaluator) ->
      let akw : kwargs :=
        {[ "context" := or_default VNone (Evaluate.context q);
           "custom_objects" := or_default VNone (Evaluate.custom_objects q) ]} in
      (auto_log_true (Evaluate.auto_log q) ->
       match add_auto_logging_callbacks evaluator akw w1 with
       | (w2, Raise exc) =>
           evaluate q (start w)
           = ({| outside := w2;
                 calls := [CallInitEvaluator (init_evaluator_kwargs q);
                           CallAddAutoLoggingCallbacks evaluator akw] |},
              Raise exc)
       | (w2, Ok _) =>
           evaluate q (start w)
           = ({| outside := (evaluator_evaluate evaluator w2).1;
                 calls := [CallInitEvaluator (init_evaluator_kwargs q);
                           CallAddAutoLoggingCallbacks evaluator akw;
                           CallEvaluate evaluator] |},
              (evaluator_evaluate evaluator w2).2)
       end) /\
      (Evaluate.auto_log q = Some (VBool false) ->
       evaluate q (start w)
       = ({| outside := (evaluator_evaluate evaluator w1).1;
             calls := [CallInitEvaluator (init_evaluator_kwargs q);
                       CallEvaluate evaluator] |},
          (evaluator_evaluate evaluator w1).2))).
Proof.
  rewrite train_denotation, evaluate_denotation. cbv zeta.
  rewrite !auto_logging_kwargs_spelled. split.
  - intros w1 trainer ->. split.
    + intros Hon%auto_log_true_truthy. rewrite Hon.
      by destruct (add_auto_logging_callbacks _ _ w1) as [w2 [r|e]].
    + by intros ->.
  - intros w1 evaluator ->. split.
    + intros Hon%auto_log_true_truthy. rewrite Hon.
      by destruct (add_auto_logging_callbacks _ _ w1) as [w2 [r|e]].
    + by intros ->.
Qed.

(** C6: [train] ([evaluate]) really starts by calling [init_trainer]
    ([init_evaluator]) with keywords whose [use_horovod] is the caller's
    argument as given, [False] when omitted; no other keyword depends on
    the argument; and the argument reaches nothing else: two runs that
    differ only in it, and to which the initialisation answers the same,
    end with the same result, the same outside world and the same later
    calls. *)
Theorem use_horovod_forwarded p q w :
  (exists kw,
      kw !! "use_horovod" = Some (or_default (VBool false) (Train.use_horovod p)) /\
      (forall flag,
          delete "use_horovod" (init_trainer_kwargs (train_with_use_horovod flag p))
          = delete "use_horovod" kw) /\
      head (calls_of (train p) w) = Some (CallInitTrainer kw) /\
      (forall w1 exc,
          init_trainer kw w = (w1, Raise exc) ->
          train p (start w)
          = ({| outside := w1; calls := [CallInitTrainer kw] |}, Raise exc)) /\
      (forall flag,
          init_trainer (init_trainer_kwargs (train_with_use_horovod flag p)) w
          = init_trainer kw w ->
          (train (train_with_use_horovod flag p) (start w)).2 = (train p (start w)).2 /\
          outside (train (train_with_use_horovod flag p) (start w)).1
          = outside (train p (start w)).1 /\
          tail (calls (train (train_with_use_horovod flag p) (start w)).1)
          = tail (calls (train p (start w)).1))) /\
  (exists kw,
      kw !! "use_horovod" = Some (or_default (VBool false) (Evaluate.use_horovod q)) /\
      (forall flag,
          delete "use_horovod" (init_evaluator_kwargs (evaluate_with_use_horovod flag q))
          = delete "use_horovod" kw) /\
      head (calls_of (evaluate q) w) = Some (CallInitEvaluator kw) /\
      (forall w1 exc,
          init_evaluator kw w = (w1, Raise exc) ->
          evaluate q (start w)
          = ({| outside := w1; calls := [CallInitEvaluator kw] |}, Raise exc)) /\
      (forall flag,
          init_evaluator (init_evaluator_kwargs (evaluate_with_use_horovod flag q)) w
          = init_evaluator kw w ->
          (evaluate (evaluate_with_use_horovod flag q) (start w)).2
          = (evaluate q (start w)).2 /\
          outside (evaluate (evaluate_with_use_horovod flag q) (start w)).1
          = outside (evaluate q (start w)).1 /\
          tail (calls (evaluate (evaluate_with_use_horovod flag q) (start w)).1)
          = tail (calls (evaluate q (start w)).1))).
Proof.
  split.
  - exists (init_trainer_kwargs p).
    split; [reflexivity|]. split; [by intros flag|]. split; [|split].
    + unfold calls_of. rewrite train_denotation. cbv zeta.
      by repeat case_match.
    + intros w1 exc Hinit. rewrite train_denotation. cbv zeta. by rewrite Hinit.
    + intros flag Hsame. rewrite !train_denotation. cbv zeta. rewrite Hsame.
      change (Train.auto_log (train_with_use_horovod flag p)) with (Train.auto_log p).
      change (Train.context (train_with_use_horovod flag p)) with (Train.context p).
      change (Train.custom_objects (train_with_use_horovod flag p))
        with (Train.custom_objects p).
      by repeat case_match.
  - exists (init_evaluator_kwargs q).
    split; [reflexivity|]. split; [by intros flag|]. split; [|split].
    + unfold calls_of. rewrite evaluate_denotation. cbv zeta.
      by repeat case_match.
    + intros w1 exc Hinit. rewrite evaluate_denotation. cbv zeta. by rewrite Hinit.
    + intros flag Hsame. rewrite !evaluate_denotation. cbv zeta. rewrite Hsame.
      change (Evaluate.auto_log (evaluate_with_use_horovod flag q))
        with (Evaluate.auto_log q).
      change (Evaluate.context (evaluate_with_use_horovod flag q))
        with (Evaluate.context q).
      change (Evaluate.custom_objects (evaluate_with_use_horovod flag q))
        with (Evaluate.custom_objects q).
      by repeat case_match.
Qed.

(** C7: the steps of [train] ([evaluate]) run in a fixed order, each on the
    world the one before it left: the initialisation on the caller's
    world; then, when [auto_log] is truthy, the registration of the
    auto-logging callbacks on the world the initialisation left; and only
    then the loop, on the world the registration left (the initialisation
    left, when [auto_log] is falsy).  An initialisation that raises ends
    the run at once, and the log of calls goes through the steps
    initialise, register, loop in strictly increasing order. *)
Theorem steps_in_order p q w :
  ((forall w1 trainer w2 r,
       init_trainer (init_trainer_kwargs p) w = (w1, Ok trainer) ->
       truthy (or_default (VBool true) (Train.auto_log p)) = true ->
       add_auto_logging_callbacks trainer
         (auto_logging_kwargs (Train.context p) (Train.custom_objects p)) w1 = (w2, Ok r) ->
       train p (start w)
       = ({| outside := (trainer_train trainer w2).1;
             calls := [CallInitTrainer (init_trainer_kwargs p);
                       CallAddAutoLoggingCallbacks trainer
                         (auto_logging_kwargs (Train.context p) (Train.custom_objects p));
                       CallTrain trainer] |},
          none_or_raise (trainer_train trainer w2).2)) /\
   (forall w1 trainer,
       init_trainer (init_trainer_kwargs p) w = (w1, Ok trainer) ->
       truthy (or_default (VBool true) (Train.auto_log p)) = false ->
       train p (start w)
       = ({| outside := (trainer_train trainer w1).1;
             calls := [CallInitTrainer (init_trainer_kwargs p); CallTrain trainer] |},
          none_or_raise (trainer_train trainer w1).2)) /\
   (forall w1 exc,
       init_trainer (init_trainer_kwargs p) w = (w1, Raise exc) ->
       train p (start w)
       = ({| outside := w1; calls := [CallInitTrainer (init_trainer_kwargs p)] |},
          Raise exc)) /\
   StronglySorted lt (step_of <$> calls_of (train p) w)) /\
  ((forall w1 evaluator w2 r,
       init_evaluator (init_evaluator_kwargs q) w = (w1, Ok evaluator) ->
       truthy (or_default (VBool true) (Evaluate.auto_log q)) = true ->
       add_auto_logging_callbacks evaluator
         (auto_logging_kwargs (Evaluate.context q) (Evaluate.custom_objects q)) w1
       = (w2, Ok r) ->
       evaluate q (start w)
       = ({| outside := (evaluator_evaluate evaluator w2).1;
             calls := [CallInitEvaluator (init_evaluator_kwargs q);
                       CallAddAutoLoggingCallbacks evaluator
                         (auto_logging_kwargs (Evaluate.context q)
                            (Evaluate.custom_objects q));
                       CallEvaluate evaluator] |},
          (evaluator_evaluate evaluator w2).2)) /\
   (forall w1 evaluator,
       init_evaluator (init_evaluator_kwargs q) w = (w1, Ok evaluator) ->
       truthy (or_default (VBool true) (Evaluate.auto_log q)) = false ->
       evaluate q (start w)
       = ({| outside := (evaluator_evaluate evaluator w1).1;
             calls := [CallInitEvaluator (init_evaluator_kwargs q);
                       CallEvaluate evaluator] |},
          (evaluator_evaluate evaluator w1).2)) /\
   (forall w1 exc,
       init_evaluator (init_evaluator_kwargs q) w = (w1, Raise exc) ->
       evaluate q (start w)
       = ({| outside := w1; calls := [CallInitEvaluator (init_evaluator_kwargs q)] |},
          Raise exc)) /\
   StronglySorted lt (step_of <$> calls_of (evaluate q) w)).
Proof.
  unfold calls_of. rewrite train_denotation, evaluate_denotation. cbv zeta. split.
  - split; [|split; [|split]].
    + by intros w1 trainer w2 r -> -> ->.
    + by intros w1 trainer -> ->.
    + by intros w1 exc ->.
    + repeat case_match; simpl; repeat constructor.
  - split; [|split; [|split]].
    + by intros w1 evaluator w2 r -> -> ->.
    + by intros w1 evaluator -> ->.
    + by intros w1 exc ->.
    + repeat case_match; simpl; repeat constructor.
Qed.

End Traces.

(** *** The claims on a run that records what really ran *)

Lemma auto_log_registers_callbacks_witness :
  outside (@train _ recording_interface train_defaults (start [])).1
  = [VStr "init_trainer"; VBool false;
     VStr "add_auto_logging_callbacks"; VRef 104; VStr "train"] /\
  outside (@evaluate _ recording_interface evaluate_defaults (start [])).1
  = [VStr "init_evaluator"; VBool true; VStr "evaluate"].
Proof.
  destruct (@auto_log_registers_callbacks _ recording_interface
              train_defaults evaluate_defaults []) as [Htrain Hevaluate].
  destruct (Htrain [VStr "init_trainer"; VBool false] (VRef 1) eq_refl) as [Hon _].
  destruct (Hevaluate [VStr "init_evaluator"; VBool true] (VRef 2) eq_refl) as [_ Hoff].
  split.
  - specialize (Hon (or_introl eq_refl)). simpl in Hon. rewrite Hon. reflexivity.
  - rewrite (Hoff eq_refl). reflexivity.
Defined.

Lemma use_horovod_forwarded_witness :
  exists kw,
    kw !! "use_horovod" = Some (VBool true) /\
    head (calls_of (@evaluate _ recording_interface evaluate_defaults) [])
    = Some (CallInitEvaluator kw).
Proof.
  destruct (@use_horovod_forwarded _ recording_interface
              train_defaults evaluate_defaults [])
    as (_ & kw & Hflag & _ & Hfirst & _).
  exists kw. split; [exact Hflag | exact Hfirst].
Defined.

Lemma steps_in_order_witness :
  @train _ recording_interface train_defaults (start [])
  = ({| outside := [VStr "init_trainer"; VBool false;
                    VStr "add_auto_logging_callbacks"; VRef 104; VStr "train"];
        calls := [CallInitTrainer (init_trainer_kwargs train_defaults);
                  CallAddAutoLoggingCallbacks (VRef 1)
                    (auto_logging_kwargs (Some (VRef 104)) None);
                  CallTrain (VRef 1)] |},
     Ok VNone) /\
  outside (@train _ recording_interface train_auto_log_none (start [])).1
  = [VStr "init_trainer"; VBool false; VStr "train"].
Proof.
  destruct (@steps_in_order _ recording_interface train_defaults evaluate_defaults [])
    as ((Hfull & _) & _).
  destruct (@steps_in_order _ recording_interface train_auto_log_none evaluate_defaults [])
    as ((_ & Hplain & _) & _).
  split.
  - apply (Hfull [VStr "init_trainer"; VBool false] (VRef 1)
             [VStr "init_trainer"; VBool false;
              VStr "add_auto_logging_callbacks"; VRef 104] VNone);
      reflexivity.
  - rewrite (Hplain [VStr "init_trainer"; VBool false] (VRef 1)); reflexivity.
Defined.

(** *** Further properties of [train] and [evaluate] *)

Section Outcomes.
Context {world : Type} `{!PyTorchMLRunInterface world}.

Implicit Types (w : world) (p : Train.params) (q : Evaluate.params).

(** X10: an exception of the initialisation or of the registration of the
    auto-logging callbacks leaves [train] ([evaluate]) with that exception,
    the outside world as the failing call left it, and no later call: a
    failed registration means the loop is never started. *)
Theorem collaborator_failure_aborts p q w exc :
  (forall w1,
      init_trainer (init_trainer_kwargs p) w = (w1, Raise exc) ->
      train p (start w)
      = ({| outside := w1; calls := [CallInitTrainer (init_trainer_kwargs p)] |},
         Raise exc)) /\
  (forall w1 trainer w2,
      init_trainer (init_trainer_kwargs p) w = (w1, Ok trainer) ->
      truthy (or_default (VBool true) (Train.auto_log p)) = true ->
      add_auto_logging_callbacks trainer
        (auto_logging_kwargs (Train.context p) (Train.custom_objects p)) w1
      = (w2, Raise exc) ->
      train p (start w)
      = ({| outside := w2;
            calls := [CallInitTrainer (init_trainer_kwargs p);
                      CallAddAutoLoggingCallbacks trainer
                        (auto_logging_kwargs (Train.context p) (Train.custom_objects p))] |},
         Raise exc)) /\
  (forall w1,
      init_evaluator (init_evaluator_kwargs q) w = (w1, Raise exc) ->
      evaluate q (start w)
      = ({| outside := w1; calls := [CallInitEvaluator (init_evaluator_kwargs q)] |},
         Raise exc)) /\
  (forall w1 evaluator w2,
      init_evaluator (init_evaluator_kwargs q) w = (w1, Ok evaluator) ->
      truthy (or_default (VBool true) (Evaluate.auto_log q)) = true ->
      add_auto_logging_callbacks evaluator
        (auto_logging_kwargs (Evaluate.context q) (Evaluate.custom_objects q)) w1
      = (w2, Raise exc) ->
      evaluate q (start w)
      = ({| outside := w2;
            calls := [CallInitEvaluator (init_evaluator_kwargs q);
                      CallAddAutoLoggingCallbacks evaluator
                        (auto_logging_kwargs (Evaluate.context q)
                           (Evaluate.custom_objects q))] |},
         Raise exc)).
Proof.
  unfold train, evaluate, bind, perform, ret, start; simpl.
  split; [|split; [|split]].
  - by intros w1 ->.
  - intros w1 trainer w2 -> -> Hreg. simpl. by rewrite Hreg.
  - by intros w1 ->.
  - intros w1 evaluator w2 -> -> Hreg. simpl. by rewrite Hreg.
Qed.

(** X11: once the loop is reached, its outcome is the outcome of the
    function: [evaluate] returns what [evaluator.evaluate()] returned or
    raises what it raised; [train] raises what [trainer.train()] raised
    and otherwise returns [None], whatever the loop returned.  The outside
    world is left as the loop left it. *)
Theorem loop_outcome_is_outcome p q w :
  (forall w1 trainer wb,
      init_trainer (init_trainer_kwargs p) w = (w1, Ok trainer) ->
      (if truthy (or_default (VBool true) (Train.auto_log p))
       then exists r,
           add_auto_logging_callbacks trainer
             (auto_logging_kwargs (Train.context p) (Train.custom_objects p)) w1
           = (wb, Ok r)
       else wb = w1) ->
      (train p (start w)).2
      = match (trainer_train trainer wb).2 with
        | Ok _ => Ok VNone
        | Raise e => Raise e
        end /\
      outside (train p (start w)).1 = (trainer_train trainer wb).1) /\
  (forall w1 evaluator wb,
      init_evaluator (init_evaluator_kwargs q) w = (w1, Ok evaluator) ->
      (if truthy (or_default (VBool true) (Evaluate.auto_log q))
       then exists r,
           add_auto_logging_callbacks evaluator
             (auto_logging_kwargs (Evaluate.context q) (Evaluate.custom_objects q)) w1
           = (wb, Ok r)
       else wb = w1) ->
      (evaluate q (start w)).2 = (evaluator_evaluate evaluator wb).2 /\
      outside (evaluate q (start w)).1 = (evaluator_evaluate evaluator wb).1).
Proof.
  unfold train, evaluate, bind, perform, ret, start; simpl. split.
  - intros w1 trainer wb -> Hreg. simpl.
    destruct (truthy _); simpl.
    + destruct Hreg as [r ->]. simpl.
      by destruct (trainer_train trainer wb) as [w3 [r'|e]].
    + subst wb. by destruct (trainer_train trainer w1) as [w3 [r'|e]].
  - intros w1 evaluator wb -> Hreg. simpl.
    destruct (truthy _); simpl.
    + destruct Hreg as [r ->]. simpl.
      by destruct (evaluator_evaluate evaluator wb) as [w3 [r'|e]].
    + subst wb. by destruct (evaluator_evaluate evaluator w1) as [w3 [r'|e]].
Qed.

End Outcomes.

Lemma collaborator_failure_aborts_witness :
  @calls_of nat value (@train nat failing_registration train_defaults) 0
  = [CallInitTrainer (init_trainer_kwargs train_defaults);
     CallAddAutoLoggingCallbacks (VRef 0) (auto_logging_kwargs (Some (VRef 104)) None)].
Proof.
  destruct (@collaborator_failure_aborts nat failing_registration
              train_defaults evaluate_defaults 0 (Exception "no context"))
    as (_ & Hregistration & _).
  unfold calls_of.
  rewrite (Hregistration 1 (VRef 0) 1 eq_refl eq_refl eq_refl). reflexivity.
Defined.

Lemma loop_outcome_is_outcome_witness :
  (evaluate evaluate_defaults (start 0)).2 = Ok (VList [VInt 1]) /\
  (train train_defaults (start 0)).2 = Ok VNone.
Proof.
  destruct (loop_outcome_is_outcome train_defaults evaluate_defaults 0)
    as [Htrain Hevaluate].
  split.
  - apply (Hevaluate 1 (VRef 0) 1 eq_refl eq_refl).
  - apply (Htrain 1 (VRef 0) 1 eq_refl). exists VNone. reflexivity.
Defined.

End TrainEvaluate.
